(** * ZenML model registries and the Evidently report step

    A shallow embedding of
    - [zenml/model_registries/base_model_registry.py]: the stage enum, the
      [ModelRegistration], [ZenMLModelMetadata] and [ModelVersion] value
      objects with the root validator [fill_in_out_zenml_metadata], and the
      abstract [BaseModelRegistry] interface;
    - [zenml/integrations/evidently/steps/evidently_report.py]: the
      [EvidentlyColumnMapping] conversion and the report step's entrypoint.

    Python dictionaries with string keys are [gmap string _]; [Optional[T]]
    is [option T]; raised exceptions are values of an error type. *)

From stdpp Require Import gmap strings list fin_maps pretty.

Local Open Scope string_scope.

(** ** Model registry value objects *)

Module BaseModelRegistry.

(** [class ModelVersionStage(Enum)] *)
Inductive ModelVersionStage : Type :=
  | NONE
  | STAGING
  | PRODUCTION
  | ARCHIVED.

(** The [value] of each enum member. *)
Definition stage_value (s : ModelVersionStage) : string :=
  match s with
  | NONE => "None"
  | STAGING => "Staging"
  | PRODUCTION => "Production"
  | ARCHIVED => "Archived"
  end.

(** [list(ModelVersionStage)], in declaration order. *)
Definition all_stages : list ModelVersionStage :=
  [NONE; STAGING; PRODUCTION; ARCHIVED].

#[export] Instance ModelVersionStage_eq_dec : EqDecision ModelVersionStage.
Proof. solve_decision. Defined.

(** [class ModelRegistration(BaseModel)] *)
Record ModelRegistration : Type := mkModelRegistration {
  name : string;
  description : option string;
  tags : option (gmap string string)
}.

(** [class ZenMLModelMetadata(BaseModel)]: every field defaults to [None]. *)
Record ZenMLModelMetadata : Type := mkZenMLModelMetadata {
  zenml_version : option string;
  zenml_pipeline_run_id : option string;
  zenml_pipeline_name : option string;
  zenml_step_name : option string
}.

(** [ZenMLModelMetadata()] *)
Definition ZenMLModelMetadata_default : ZenMLModelMetadata :=
  mkZenMLModelMetadata None None None None.

(** Attribute assignments [md.zenml_version = x] and its three siblings. *)
Definition set_zenml_version (x : string) (md : ZenMLModelMetadata) :=
  mkZenMLModelMetadata (Some x) (zenml_pipeline_run_id md)
    (zenml_pipeline_name md) (zenml_step_name md).

Definition set_zenml_pipeline_run_id (x : string) (md : ZenMLModelMetadata) :=
  mkZenMLModelMetadata (zenml_version md) (Some x)
    (zenml_pipeline_name md) (zenml_step_name md).

Definition set_zenml_pipeline_name (x : string) (md : ZenMLModelMetadata) :=
  mkZenMLModelMetadata (zenml_version md) (zenml_pipeline_run_id md)
    (Some x) (zenml_step_name md).

Definition set_zenml_step_name (x : string) (md : ZenMLModelMetadata) :=
  mkZenMLModelMetadata (zenml_version md) (zenml_pipeline_run_id md)
    (zenml_pipeline_name md) (Some x).

(** [class ModelVersion(BaseModel)] *)
Record ModelVersion : Type := mkModelVersion {
  model_registration : ModelRegistration;
  model_source_uri : string;
  version_description : option string;
  version : option string;
  created_at : option Z;
  last_updated_at : option Z;
  version_stage : ModelVersionStage;
  version_tags : gmap string string;
  registry_metadata : gmap string string;
  zenml_metadata : option ZenMLModelMetadata
}.

(** A keyword argument of a field that has a default: left out, or passed. *)
Inductive Arg (A : Type) : Type :=
  | Omitted
  | Passed (a : A).
Arguments Omitted {A}.
Arguments Passed {A} a.

Definition arg_or {A : Type} (d : A) (x : Arg A) : A :=
  match x with
  | Omitted => d
  | Passed a => a
  end.

(** The keyword arguments of [ModelVersion(...)].  The two fields without a
    default are plain; an [Optional] field whose default is [None] is an
    [option] (leaving it out and passing [None] are the same); the four
    fields with another default are an [Arg]. *)
Record ModelVersionArgs : Type := mkModelVersionArgs {
  a_model_registration : ModelRegistration;
  a_model_source_uri : string;
  a_version_description : option string;
  a_version : option string;
  a_created_at : option Z;
  a_last_updated_at : option Z;
  a_version_stage : Arg ModelVersionStage;
  a_version_tags : Arg (gmap string string);
  a_registry_metadata : Arg (gmap string string);
  a_zenml_metadata : Arg (option ZenMLModelMetadata)
}.

(** The [values] dictionary handed to the root validator: one entry per
    field, after field validation and defaults. *)
Record Values : Type := mkValues {
  v_model_registration : ModelRegistration;
  v_model_source_uri : string;
  v_version_description : option string;
  v_version : option string;
  v_created_at : option Z;
  v_last_updated_at : option Z;
  v_version_stage : ModelVersionStage;
  v_version_tags : gmap string string;
  v_registry_metadata : gmap string string;
  v_zenml_metadata : option ZenMLModelMetadata
}.

(** Field validation: declared defaults fill the omitted fields.
    [version_stage] defaults to [ModelVersionStage.NONE], the two
    dictionaries to [dict()], [zenml_metadata] to [ZenMLModelMetadata()]. *)
Definition field_values (a : ModelVersionArgs) : Values :=
  mkValues
    (a_model_registration a)
    (a_model_source_uri a)
    (a_version_description a)
    (a_version a)
    (a_created_at a)
    (a_last_updated_at a)
    (arg_or NONE (a_version_stage a))
    (arg_or ∅ (a_version_tags a))
    (arg_or ∅ (a_registry_metadata a))
    (arg_or (Some ZenMLModelMetadata_default) (a_zenml_metadata a)).

(** [values["zenml_metadata"] = md; values["version_tags"] = t] *)
Definition with_metadata_and_tags
    (values : Values) (md : ZenMLModelMetadata) (t : gmap string string)
    : Values :=
  mkValues
    (v_model_registration values)
    (v_model_source_uri values)
    (v_version_description values)
    (v_version values)
    (v_created_at values)
    (v_last_updated_at values)
    (v_version_stage values)
    t
    (v_registry_metadata values)
    (Some md).

(** Python truthiness of a dictionary. *)
Definition dict_truthy {V : Type} (d : gmap string V) : bool :=
  bool_decide (d ≠ ∅).

(** One of the four blocks of the validator:
[[
    if key in version_tags.keys():
        values["zenml_metadata"].<field> = version_tags[key]
        values["version_tags"].pop(key)
]]
    [version_tags] and [values["version_tags"]] are the same dictionary, so
    the metadata object and the tags are threaded as a pair. *)
Definition extract
    (key : string)
    (assign : string -> ZenMLModelMetadata -> ZenMLModelMetadata)
    (st : ZenMLModelMetadata * gmap string string)
    : ZenMLModelMetadata * gmap string string :=
  match st.2 !! key with
  | Some x => (assign x st.1, delete key st.2)
  | None => st
  end.

(** [ModelVersion.fill_in_out_zenml_metadata], the root validator. *)
Definition fill_in_out_zenml_metadata (values : Values) : Values :=
  let md :=
    match v_zenml_metadata values with
    | None => ZenMLModelMetadata_default
    | Some m => m
    end in
  let version_tags := v_version_tags values in
  if dict_truthy version_tags then
    let st := (md, version_tags) in
    let st := extract "zenml_version" set_zenml_version st in
    let st := extract "zenml_pipeline_run_id" set_zenml_pipeline_run_id st in
    let st := extract "zenml_pipeline_name" set_zenml_pipeline_name st in
    let st := extract "zenml_step_name" set_zenml_step_name st in
    with_metadata_and_tags values st.1 st.2
  else
    with_metadata_and_tags values md version_tags.

(** The object built from the validated values. *)
Definition of_values (values : Values) : ModelVersion :=
  mkModelVersion
    (v_model_registration values)
    (v_model_source_uri values)
    (v_version_description values)
    (v_version values)
    (v_created_at values)
    (v_last_updated_at values)
    (v_version_stage values)
    (v_version_tags values)
    (v_registry_metadata values)
    (v_zenml_metadata values).

(** Calling the class [ModelVersion] with keyword arguments [a]. *)
Definition ModelVersion_new (a : ModelVersionArgs) : ModelVersion :=
  of_values (fill_in_out_zenml_metadata (field_values a)).

(** The reserved tag keys, and the metadata attribute each one names. *)
Definition reserved_keys : list string :=
  ["zenml_version"; "zenml_pipeline_run_id"; "zenml_pipeline_name";
   "zenml_step_name"].

Definition metadata_attr (md : ZenMLModelMetadata) (key : string)
    : option string :=
  if decide (key = "zenml_version") then zenml_version md
  else if decide (key = "zenml_pipeline_run_id") then zenml_pipeline_run_id md
  else if decide (key = "zenml_pipeline_name") then zenml_pipeline_name md
  else if decide (key = "zenml_step_name") then zenml_step_name md
  else None.

(** The tags a constructor call supplies (none, if the argument is left
    out) and the metadata object the validator starts from. *)
Definition supplied_tags (a : ModelVersionArgs) : gmap string string :=
  arg_or ∅ (a_version_tags a).

Definition initial_metadata (a : ModelVersionArgs) : ZenMLModelMetadata :=
  match arg_or (Some ZenMLModelMetadata_default) (a_zenml_metadata a) with
  | Some m => m
  | None => ZenMLModelMetadata_default
  end.

(** The same call with another [zenml_metadata] argument. *)
Definition with_zenml_metadata
    (a : ModelVersionArgs) (x : Arg (option ZenMLModelMetadata))
    : ModelVersionArgs :=
  mkModelVersionArgs
    (a_model_registration a) (a_model_source_uri a)
    (a_version_description a) (a_version a)
    (a_created_at a) (a_last_updated_at a)
    (a_version_stage a) (a_version_tags a) (a_registry_metadata a) x.

(** A registration and two constructor calls used as running examples:
    the call of the spec's tag example, and a call that passes both an
    explicit pipeline name and a tag for it. *)
Definition example_registration : ModelRegistration :=
  mkModelRegistration "m" None None.

Definition example_tagged_args : ModelVersionArgs :=
  mkModelVersionArgs example_registration "s3://bucket/model" None (Some "1")
    None None Omitted
    (Passed (<["zenml_pipeline_name" := "p1"]> (<["color" := "red"]> ∅)))
    Omitted Omitted.

Definition example_explicit_metadata : ZenMLModelMetadata :=
  mkZenMLModelMetadata None None (Some "explicit") None.

Definition example_conflicting_args : ModelVersionArgs :=
  with_zenml_metadata example_tagged_args
    (Passed (Some example_explicit_metadata)).

(** A call that passes explicit metadata and only an ordinary tag. *)
Definition example_untagged_args : ModelVersionArgs :=
  mkModelVersionArgs example_registration "s3://bucket/model" None (Some "1")
    None None (Passed STAGING) (Passed (<["color" := "red"]> ∅))
    Omitted (Passed (Some example_explicit_metadata)).

End BaseModelRegistry.

(** ** The registry behind the abstract interface *)

Module ModelRegistry.
Import BaseModelRegistry.

(** Modelled from the spec: the four error kinds of its error handling
    design.  The source declares no exception class for the registry. *)
Inductive ErrorKind : Type :=
  | NotFoundError
  | AlreadyExistsError
  | ValidationError
  | LoadError.

Inductive result (A : Type) : Type :=
  | Ok (a : A)
  | Fail (e : ErrorKind).
Arguments Ok {A} a.
Arguments Fail {A} e.

(** Modelled from the spec: the state of a backend.  [BaseModelRegistry]
    only declares its methods ([@abstractmethod], no body) and no concrete
    registry is in the source, so the backend is the data model of the
    spec: registrations keyed by their unique name, versions keyed by
    [(name, version)], each version owned by the registration of its name. *)
Record Registry : Type := mkRegistry {
  registrations : gmap string ModelRegistration;
  versions : gmap (string * string) ModelVersion
}.

Definition empty_registry : Registry := mkRegistry ∅ ∅.

(** An operation reads and writes the registry and returns or fails.  A
    failure stops the operation where it is raised: what was written before
    it stays written. *)
Definition Op (A : Type) : Type := Registry -> result A * Registry.

Definition ret {A : Type} (a : A) : Op A := fun r => (Ok a, r).

Definition raise {A : Type} (e : ErrorKind) : Op A := fun r => (Fail e, r).

Definition bind {A B : Type} (c : Op A) (k : A -> Op B) : Op B :=
  fun r =>
    match c r with
    | (Ok a, r') => k a r'
    | (Fail e, r') => (Fail e, r')
    end.

Definition read : Op Registry := fun r => (Ok r, r).

Definition write (r' : Registry) : Op unit := fun _ => (Ok tt, r').

Notation "x <-- c ;; k" := (bind c (fun x => k))
  (at level 90, c at level 89, right associativity).
Notation "c ;;; k" := (bind c (fun _ => k))
  (at level 90, right associativity).

(** Python's [x if x is not None else d] for an optional argument. *)
Definition provided {A : Type} (x : option A) (d : A) : A :=
  match x with
  | Some a => a
  | None => d
  end.

Definition arg_of_option {A : Type} (x : option A) : Arg A :=
  match x with
  | Some a => Passed a
  | None => Omitted
  end.

(** The keyword arguments that rebuild a stored version. *)
Definition args_of (mv : ModelVersion) : ModelVersionArgs :=
  mkModelVersionArgs
    (model_registration mv)
    (model_source_uri mv)
    (version_description mv)
    (version mv)
    (created_at mv)
    (last_updated_at mv)
    (Passed (version_stage mv))
    (Passed (version_tags mv))
    (Passed (registry_metadata mv))
    (Passed (zenml_metadata mv)).

Section Backend.

(** The version identifier the backend assigns when the caller gives none
    (auto-increment, for example). *)
Variable allocate_version :
  gmap (string * string) ModelVersion -> string -> string.

(** Modelled from the spec: [register_model] fails with
    [AlreadyExistsError] if the name is already registered. *)
Definition register_model
    (nm : string) (desc : option string) (tgs : option (gmap string string))
    : Op ModelRegistration :=
  r <-- read ;;
  match registrations r !! nm with
  | Some _ => raise AlreadyExistsError
  | None =>
      let reg := mkModelRegistration nm desc tgs in
      write (mkRegistry (<[nm := reg]> (registrations r)) (versions r)) ;;;
      ret reg
  end.

(** Modelled from the spec: [get_model] fails with [NotFoundError]. *)
Definition get_model (nm : string) : Op ModelRegistration :=
  r <-- read ;;
  match registrations r !! nm with
  | Some reg => ret reg
  | None => raise NotFoundError
  end.

(** Modelled from the spec: [check_model_exists] never fails. *)
Definition check_model_exists (nm : string) : Op bool :=
  r <-- read ;;
  ret (bool_decide (is_Some (registrations r !! nm))).

(** Modelled from the spec: [update_model] fails with [NotFoundError] if
    the name is unknown and changes only the provided fields. *)
Definition update_model
    (nm : string) (desc : option string) (tgs : option (gmap string string))
    : Op ModelRegistration :=
  old <-- get_model nm ;;
  r <-- read ;;
  let reg :=
    mkModelRegistration nm
      (match desc with Some d => Some d | None => description old end)
      (match tgs with Some t => Some t | None => tags old end) in
  write (mkRegistry (<[nm := reg]> (registrations r)) (versions r)) ;;;
  ret reg.

(** Modelled from the spec: [delete_model] fails with [NotFoundError] if
    the name is absent; otherwise it removes every owned version, then the
    registration. *)
Definition delete_model (nm : string) : Op unit :=
  _ <-- get_model nm ;;
  r <-- read ;;
  write (mkRegistry (registrations r)
           (filter (fun kv => kv.1.1 ≠ nm) (versions r))) ;;;
  r <-- read ;;
  write (mkRegistry (delete nm (registrations r)) (versions r)).

(** Modelled from the spec: [get_model_version] fails with
    [NotFoundError]. *)
Definition get_model_version (nm v : string) : Op ModelVersion :=
  r <-- read ;;
  match versions r !! (nm, v) with
  | Some mv => ret mv
  | None => raise NotFoundError
  end.

(** Modelled from the spec: [check_model_version_exists] never fails. *)
Definition check_model_version_exists (nm v : string) : Op bool :=
  r <-- read ;;
  ret (bool_decide (is_Some (versions r !! (nm, v)))).

(** Modelled from the spec: [register_model_version] creates the parent
    registration if it does not exist; registering an existing
    [(name, version)] fails with [AlreadyExistsError]; an omitted version is
    allocated by the backend.  The parameters are those of the abstract
    method, which has none for the stage: the record is built by the
    [ModelVersion] class of the source and gets the class default. *)
Definition register_model_version
    (nm : string) (desc : option string) (tgs : option (gmap string string))
    (uri : string) (ver : option string) (vdesc : option string)
    (vtags rmeta : option (gmap string string))
    (zv zrun zpipe zstep : option string)
    : Op ModelVersion :=
  r <-- read ;;
  let v := provided ver (allocate_version (versions r) nm) in
  match versions r !! (nm, v) with
  | Some _ => raise AlreadyExistsError
  | None =>
      reg <-- match registrations r !! nm with
              | Some reg => ret reg
              | None => register_model nm desc tgs
              end ;;
      let mv :=
        ModelVersion_new
          (mkModelVersionArgs reg uri vdesc (Some v) None None
             Omitted (arg_of_option vtags) (arg_of_option rmeta)
             (Passed (Some (mkZenMLModelMetadata zv zrun zpipe zstep)))) in
      r <-- read ;;
      write (mkRegistry (registrations r) (<[(nm, v) := mv]> (versions r))) ;;;
      ret mv
  end.

(** Modelled from the spec: [update_model_version] fails with
    [NotFoundError] if [(name, version)] is unknown; only the provided
    fields change, and any stage may follow any stage.  The updated record
    is rebuilt by the [ModelVersion] class of the source. *)
Definition update_model_version
    (nm v : string) (vdesc : option string)
    (vtags : option (gmap string string)) (stage : option ModelVersionStage)
    : Op ModelVersion :=
  old <-- get_model_version nm v ;;
  let a := args_of old in
  let mv :=
    ModelVersion_new
      (mkModelVersionArgs
         (a_model_registration a)
         (a_model_source_uri a)
         (match vdesc with Some d => Some d | None => a_version_description a end)
         (a_version a)
         (a_created_at a)
         (a_last_updated_at a)
         (Passed (provided stage (version_stage old)))
         (Passed (provided vtags (version_tags old)))
         (a_registry_metadata a)
         (a_zenml_metadata a)) in
  r <-- read ;;
  write (mkRegistry (registrations r) (<[(nm, v) := mv]> (versions r))) ;;;
  ret mv.

(** Modelled from the spec: [delete_model_version] fails with
    [NotFoundError]. *)
Definition delete_model_version (nm v : string) : Op unit :=
  _ <-- get_model_version nm v ;;
  r <-- read ;;
  write (mkRegistry (registrations r) (delete (nm, v) (versions r))).

(** One optional filter: absent, it accepts everything. *)
Definition accepts {A : Type} (flt : option A) (test : A -> bool) : bool :=
  match flt with
  | None => true
  | Some x => test x
  end.

(** The conjunction of the three optional filters on one stored version. *)
Definition version_matches
    (nm uri : option string) (vtags : option (gmap string string))
    (kv : string * string * ModelVersion) : bool :=
  accepts nm (fun n => bool_decide (kv.1.1 = n))
  && accepts uri (fun u => bool_decide (model_source_uri kv.2 = u))
  && accepts vtags (fun t => bool_decide (t ⊆ version_tags kv.2)).

(** Modelled from the spec: [list_model_versions] applies its filters
    conjunctively; omitting all of them returns all versions. *)
Definition list_model_versions
    (nm uri : option string) (vtags : option (gmap string string))
    : Op (list ModelVersion) :=
  r <-- read ;;
  ret (List.filter (version_matches nm uri vtags)
         (map_to_list (versions r))).*2.

End Backend.

(** A backend that numbers the versions of a model from one, and a
    registry with one model and two versions, built by the operations. *)
Definition auto_increment
    (vs : gmap (string * string) ModelVersion) (nm : string) : string :=
  pretty (S (size (filter (fun kv => kv.1.1 = nm) vs))).

Definition after {A : Type} (c : Op A) (r : Registry) : Registry := (c r).2.

Definition example_registry : Registry :=
  after (register_model_version auto_increment "m" None None
           "s3://bucket/b" None None (Some (<["env" := "dev"]> ∅)) None
           None None None None)
    (after (register_model_version auto_increment "m" (Some "a model") None
              "s3://bucket/a" (Some "1") None (Some (<["env" := "prod"]> ∅))
              None None None None None)
       empty_registry).

End ModelRegistry.

(** ** The Evidently report step *)

Module EvidentlyReport.

(** Exceptions, by class, with the data they carry. *)
Inductive PyExn : Type :=
  | ValueError (msg : string)
  | KeyError (missing : list string)
  | OtherError (cls : string) (msg : string).

(** [type(e).__name__] *)
Definition exn_class (e : PyExn) : string :=
  match e with
  | ValueError _ => "ValueError"
  | KeyError _ => "KeyError"
  | OtherError cls _ => cls
  end.

Inductive PyResult (A : Type) : Type :=
  | Return (a : A)
  | Raise (e : PyExn).
Arguments Return {A} a.
Arguments Raise {A} e.

#[export] Instance PyResult_ret : MRet PyResult := fun _ a => Return a.

#[export] Instance PyResult_bind : MBind PyResult := fun _ _ k c =>
  match c with
  | Return a => k a
  | Raise e => Raise e
  end.

(** Python truthiness, the test behind [or], [not] and [if]. *)
Class Truthy (A : Type) : Type := truthy : A -> bool.

#[export] Instance string_truthy : Truthy string :=
  fun s => bool_decide (s ≠ "").

#[export] Instance Z_truthy : Truthy Z :=
  fun n => bool_decide (n ≠ 0%Z).

#[export] Instance list_truthy {A : Type} : Truthy (list A) :=
  fun l => match l with [] => false | _ :: _ => true end.

(** [None] is falsy; a value that is not [None] has its own truthiness. *)
#[export] Instance option_truthy {A : Type} `{Truthy A} : Truthy (option A) :=
  fun o => match o with None => false | Some a => truthy a end.

(** [x or y] *)
Definition py_or {A : Type} `{Truthy A} (x y : A) : A :=
  if truthy x then x else y.

(** [Union[str, Sequence[str]]] *)
Inductive StrOrSeq : Type :=
  | OneStr (s : string)
  | StrSeq (l : list string).

#[export] Instance StrOrSeq_truthy : Truthy StrOrSeq :=
  fun p => match p with OneStr s => truthy s | StrSeq l => truthy l end.

(** [Union[str, int]] *)
Inductive StrOrInt : Type :=
  | LabelStr (s : string)
  | LabelInt (n : Z).

#[export] Instance StrOrInt_truthy : Truthy StrOrInt :=
  fun p => match p with LabelStr s => truthy s | LabelInt n => truthy n end.

(** [class EvidentlyColumnMapping(BaseModel)] *)
Record EvidentlyColumnMapping : Type := mkEvidentlyColumnMapping {
  target : option string;
  prediction : option StrOrSeq;
  datetime : option string;
  id : option string;
  numerical_features : option (list string);
  categorical_features : option (list string);
  datetime_features : option (list string);
  target_names : option (list string);
  task : option string;
  pos_label : option StrOrInt;
  text_features : option (list string)
}.

(** [EvidentlyColumnMapping()]: the declared defaults. *)
Definition EvidentlyColumnMapping_default : EvidentlyColumnMapping :=
  mkEvidentlyColumnMapping None (Some (OneStr "prediction")) None None None
    None None None None (Some (LabelInt 1)) None.

(** Evidently's [ColumnMapping], the type the configuration class mirrors
    field by field. *)
Record ColumnMapping : Type := mkColumnMapping {
  cm_target : option string;
  cm_prediction : option StrOrSeq;
  cm_datetime : option string;
  cm_id : option string;
  cm_numerical_features : option (list string);
  cm_categorical_features : option (list string);
  cm_datetime_features : option (list string);
  cm_target_names : option (list string);
  cm_task : option string;
  cm_pos_label : option StrOrInt;
  cm_text_features : option (list string)
}.

(** A data frame: its columns in order, each a label and its cells. *)
Definition DataFrame : Type := list (string * list string).

(** [df.columns] *)
Definition columns (df : DataFrame) : list string := df.*1.

(** [set(cols).issubset(set(df.columns))] *)
Definition issubset_columns (cols : list string) (df : DataFrame) : bool :=
  bool_decide
    ((list_to_set cols : gset string) ⊆ list_to_set (columns df)).

(** [df.drop(labels=labels, axis=1)]: every column with one of the labels
    goes; a label that names no column is a [KeyError]. *)
Definition drop (labels : list string) (df : DataFrame) : PyResult DataFrame :=
  match List.filter (fun l => bool_decide (l ∉ columns df)) labels with
  | [] => Return (List.filter (fun c => bool_decide (c.1 ∉ labels)) df)
  | missing => Raise (KeyError missing)
  end.

Section Step.

(** [ColumnMapping()], the defaults of the Evidently library. *)
Variable ColumnMapping_new : ColumnMapping.

(** The metrics and the report options are handed to the data validator
    untouched. *)
Variable Metrics : Type.
Variable ReportOptions : Type.

(** [EvidentlyColumnMapping.to_evidently_column_mapping] *)
Definition to_evidently_column_mapping (self : EvidentlyColumnMapping)
    : ColumnMapping :=
  let column_mapping := ColumnMapping_new in
  mkColumnMapping
    (py_or (target self) (cm_target column_mapping))
    (py_or (prediction self) (cm_prediction column_mapping))
    (py_or (datetime self) (cm_datetime column_mapping))
    (py_or (id self) (cm_id column_mapping))
    (py_or (numerical_features self) (cm_numerical_features column_mapping))
    (cm_categorical_features column_mapping)
    (py_or (datetime_features self) (cm_datetime_features column_mapping))
    (py_or (target_names self) (cm_target_names column_mapping))
    (py_or (task self) (cm_task column_mapping))
    (py_or (pos_label self) (cm_pos_label column_mapping))
    (py_or (text_features self) (cm_text_features column_mapping)).

(** [class EvidentlyReportParameters(BaseParameters)] *)
Record EvidentlyReportParameters : Type := mkEvidentlyReportParameters {
  column_mapping : option EvidentlyColumnMapping;
  ignored_cols : option (list string);
  metrics : Metrics;
  report_options : ReportOptions
}.

(** The report of the data validator: [report.json()] and
    [report.show().data]. *)
Record Report : Type := mkReport {
  json : string;
  show_data : string
}.

(** The data validator of the active stack, as far as the step uses it. *)
Record EvidentlyDataValidator : Type := mkEvidentlyDataValidator {
  data_profiling :
    DataFrame -> DataFrame -> Metrics -> option ColumnMapping ->
    ReportOptions -> PyResult Report
}.

(** Lines 165 to 188 of the entrypoint: the chain on [params.ignored_cols].
    In its second branch the list is empty, which the f-string renders as
    the two brackets. *)
Definition ignore_columns
    (reference_dataset comparison_dataset : DataFrame)
    (params : EvidentlyReportParameters)
    : PyResult (DataFrame * DataFrame) :=
  match ignored_cols params with
  | None => Return (reference_dataset, comparison_dataset)
  | Some cols =>
      if negb (truthy cols) then
        Raise (ValueError
                 "Expects None or list of columns in strings, but got []")
      else if negb (issubset_columns cols reference_dataset)
              || negb (issubset_columns cols comparison_dataset) then
        Raise (ValueError
                 "Column is not found in reference or comparison datasets")
      else
        reference_dataset ← drop cols reference_dataset;
        comparison_dataset ← drop cols comparison_dataset;
        Return (reference_dataset, comparison_dataset)
  end.

(** [EvidentlyReportStep.entrypoint].  [active_data_validator] is the
    outcome of [EvidentlyDataValidator.get_active_data_validator()]. *)
Definition entrypoint
    (active_data_validator : PyResult EvidentlyDataValidator)
    (reference_dataset comparison_dataset : DataFrame)
    (params : EvidentlyReportParameters)
    : PyResult (string * string) :=
  data_validator ← active_data_validator;
  datasets ← ignore_columns reference_dataset comparison_dataset params;
  let column_mapping :=
    match column_mapping params with
    | Some cm => Some (to_evidently_column_mapping cm)
    | None => None
    end in
  report ← data_profiling data_validator datasets.1 datasets.2
             (metrics params) column_mapping (report_options params);
  Return (json report, show_data report).

End Step.

Arguments mkEvidentlyReportParameters {Metrics ReportOptions}.
Arguments column_mapping {Metrics ReportOptions}.
Arguments ignored_cols {Metrics ReportOptions}.
Arguments metrics {Metrics ReportOptions}.
Arguments report_options {Metrics ReportOptions}.
Arguments mkEvidentlyDataValidator {Metrics ReportOptions}.
Arguments data_profiling {Metrics ReportOptions}.
Arguments ignore_columns {Metrics ReportOptions}.
Arguments entrypoint ColumnMapping_new {Metrics ReportOptions}.

(** The defaults of Evidently's [ColumnMapping] dataclass, for the
    examples. *)
Definition evidently_defaults : ColumnMapping :=
  mkColumnMapping (Some "target") (Some (OneStr "prediction"))
    (Some "datetime") None None None None None None (Some (LabelInt 1)) None.

(** Two columns, two rows. *)
Definition example_frame : DataFrame :=
  [("age", ["31"; "45"]); ("city", ["Oslo"; "Rome"])].

(** A data validator whose report names the columns it was given. *)
Definition example_validator : EvidentlyDataValidator (list string) unit :=
  mkEvidentlyDataValidator
    (fun ref cmp _ _ _ =>
       Return (mkReport (String.concat "," (columns ref))
                 (String.concat "," (columns cmp)))).

Definition example_params (ignored : option (list string))
    : EvidentlyReportParameters (list string) unit :=
  mkEvidentlyReportParameters None ignored ["DataDriftPreset"] tt.

(** The same configuration with another [categorical_features]. *)
Definition with_categorical_features
    (c : option (list string)) (self : EvidentlyColumnMapping)
    : EvidentlyColumnMapping :=
  mkEvidentlyColumnMapping (target self) (prediction self) (datetime self)
    (id self) (numerical_features self) c (datetime_features self)
    (target_names self) (task self) (pos_label self) (text_features self).

(** A column mapping that configures categorical features. *)
Definition example_column_mapping : EvidentlyColumnMapping :=
  mkEvidentlyColumnMapping (Some "label") (Some (OneStr "prediction")) None
    None (Some ["age"]) (Some ["city"]) None None None (Some (LabelInt 1))
    None.

End EvidentlyReport.

(** ** The MLflow model registry step *)

Module MLFlowRegistryStep.
Import BaseModelRegistry EvidentlyReport.

(** [class MLFlowRegistryParameters(BaseParameters)] *)
Record MLFlowRegistryParameters : Type := mkMLFlowRegistryParameters {
  p_name : string;
  p_description : option string;
  p_tags : option (gmap string string);
  p_trained_model_name : option string;
  p_model_source_uri : option string;
  p_experiment_name : option string;
  p_run_name : option string;
  p_run_id : option string;
  p_version_description : option string;
  p_version_tags : option (gmap string string);
  p_registry_metadata : option (gmap string string)
}.

(** The parameters with only the required [name] given: every other field
    at its declared default. *)
Definition MLFlowRegistryParameters_default (nm : string)
    : MLFlowRegistryParameters :=
  mkMLFlowRegistryParameters nm None None (Some "model") None None None None
    None None None.

(** The keyword arguments the step passes to
    [model_registry.register_model_version]. *)
Record RegisterCall : Type := mkRegisterCall {
  c_name : string;
  c_description : option string;
  c_tags : option (gmap string string);
  c_model_source_uri : option string;
  c_version_description : option string;
  c_version_tags : option (gmap string string);
  c_zenml_version : string;
  c_zenml_pipeline_run_id : string;
  c_zenml_pipeline_name : string;
  c_zenml_step_name : string;
  c_registry_metadata : option (gmap string string)
}.

(** The MLflow client of the registry, as far as the step uses it:
    [get_run] (the step only looks at whether it raises) and
    [list_artifacts]. *)
Record MlflowClient : Type := mkMlflowClient {
  get_run : string -> PyResult unit;
  list_artifacts : string -> option string -> PyResult (list string)
}.

(** The experiment tracker of the active stack: an
    [MLFlowExperimentTracker] with its [get_run_id], or a component of
    another class. *)
Inductive ExperimentTracker : Type :=
  | MLFlowExperimentTracker
      (get_run_id : string -> string -> PyResult (option string))
  | OtherExperimentTracker.

(** The model registry of the active stack: an [MLFlowModelRegistry] with
    its client and its [register_model_version], or a component of another
    class. *)
Inductive ModelRegistryComponent : Type :=
  | MLFlowModelRegistry
      (mlflow_client : MlflowClient)
      (register : RegisterCall -> PyResult ModelVersion)
  | OtherModelRegistry.

(** [Client().active_stack]: either component may be missing. *)
Record ActiveStack : Type := mkActiveStack {
  experiment_tracker : option ExperimentTracker;
  model_registry : option ModelRegistryComponent
}.

(** [Environment()[STEP_ENVIRONMENT_NAME]] *)
Record StepEnvironment : Type := mkStepEnvironment {
  pipeline_name : string;
  step_name : string;
  run_name : string
}.

(** [x or d] for an optional string [x] and a string [d]. *)
Definition str_or (x : option string) (d : string) : string :=
  match x with
  | Some s => if truthy s then s else d
  | None => d
  end.

Section Step.

(** [zenml.__version__], the error built by
    [get_missing_mlflow_experiment_tracker_error()] and MLflow's
    [artifact_utils.get_artifact_uri]. *)
Variable zenml_version_string : string.
Variable missing_mlflow_experiment_tracker_error : PyExn.
Variable get_artifact_uri : string -> option string -> PyResult string.

(** [mlflow_register_model_step].  The [model] argument is not used by the
    body; the closing [logger.info] is left out. *)
Definition mlflow_register_model_step
    (active_stack : ActiveStack) (step_env : StepEnvironment)
    (params : MLFlowRegistryParameters) : PyResult unit :=
  match experiment_tracker active_stack with
  | Some (MLFlowExperimentTracker get_run_id) =>
      match model_registry active_stack with
      | Some (MLFlowModelRegistry client register) =>
          let pipeline_name := pipeline_name step_env in
          let step_name := step_name step_env in
          let pipeline_run_id := run_name step_env in
          mlflow_run_id ←
            (if truthy (p_run_id params) then Return (p_run_id params)
             else get_run_id
                    (str_or (p_experiment_name params) pipeline_name)
                    (str_or (p_run_name params) pipeline_run_id));
          match mlflow_run_id with
          | Some mlflow_run_id =>
              if negb (truthy mlflow_run_id) then
                Raise (ValueError
                         ("Could not find MLflow run for experiment "
                          +:+ pipeline_name +:+ " and run "
                          +:+ pipeline_run_id +:+ "."))
              else
                match get_run client mlflow_run_id with
                | Raise _ =>
                    Raise (ValueError
                             ("Could not find MLflow run with ID "
                              +:+ mlflow_run_id +:+ "."))
                | Return _ =>
                    let model_source_uri :=
                      py_or (p_model_source_uri params) None in
                    model_source_uri ←
                      (if negb (truthy (p_model_source_uri params)) then
                         artifacts ← list_artifacts client mlflow_run_id
                                       (p_trained_model_name params);
                         if truthy artifacts then
                           uri ← get_artifact_uri mlflow_run_id
                                   (p_trained_model_name params);
                           Return (Some uri)
                         else Return model_source_uri
                       else Return model_source_uri);
                    if negb (truthy model_source_uri) then
                      Raise (ValueError
                               ("No model source URI provided or no model "
                                +:+ "found in the MLflow tracking server "
                                +:+ "for the given inputs."))
                    else
                      _ ← register
                            (mkRegisterCall
                               (p_name params)
                               (p_description params)
                               (p_tags params)
                               model_source_uri
                               (p_version_description params)
                               (p_version_tags params)
                               zenml_version_string
                               pipeline_run_id
                               pipeline_name
                               step_name
                               (p_registry_metadata params));
                      Return tt
                end
          | None =>
              Raise (ValueError
                       ("Could not find MLflow run for experiment "
                        +:+ pipeline_name +:+ " and run "
                        +:+ pipeline_run_id +:+ "."))
          end
      | _ =>
          Raise (ValueError
                   ("The MLflow model registry step can only be used with "
                    +:+ "an MLflow model registry."))
      end
  | _ => Raise missing_mlflow_experiment_tracker_error
  end.

(** The registration call the step makes once the source URI is [uri]. *)
Definition call_for
    (step_env : StepEnvironment) (params : MLFlowRegistryParameters)
    (uri : string) : RegisterCall :=
  mkRegisterCall (p_name params) (p_description params) (p_tags params)
    (Some uri) (p_version_description params) (p_version_tags params)
    zenml_version_string (run_name step_env) (pipeline_name step_env)
    (step_name step_env) (p_registry_metadata params).

End Step.

(** A stack for the examples: a tracker that knows one run, a client that
    finds that run and lists one artifact under [model], and a registry
    that answers with the version it was asked to register. *)
Definition example_tracker : ExperimentTracker :=
  MLFlowExperimentTracker
    (fun experiment run =>
       Return (if bool_decide (experiment = "training" /\ run = "run-1")
               then Some "abc123" else None)).

Definition example_client : MlflowClient :=
  mkMlflowClient
    (fun run_id =>
       if bool_decide (run_id = "abc123") then Return tt
       else Raise (OtherError "MlflowException" "RESOURCE_DOES_NOT_EXIST"))
    (fun run_id path =>
       Return (if bool_decide (path = Some "model") then ["model/MLmodel"]
               else [])).

Definition example_register (call : RegisterCall) : PyResult ModelVersion :=
  Return
    (ModelVersion_new
       (mkModelVersionArgs
          (mkModelRegistration (c_name call) (c_description call)
             (c_tags call))
          (default "" (c_model_source_uri call))
          (c_version_description call) (Some "1") None None Omitted
          (match c_version_tags call with
           | Some t => Passed t
           | None => Omitted
           end)
          (match c_registry_metadata call with
           | Some t => Passed t
           | None => Omitted
           end)
          (Passed
             (Some
                (mkZenMLModelMetadata
                   (Some (c_zenml_version call))
                   (Some (c_zenml_pipeline_run_id call))
                   (Some (c_zenml_pipeline_name call))
                   (Some (c_zenml_step_name call))))))).

Definition example_stack : ActiveStack :=
  mkActiveStack (Some example_tracker)
    (Some (MLFlowModelRegistry example_client example_register)).

Definition example_step_env : StepEnvironment :=
  mkStepEnvironment "training" "register" "run-1".

Definition example_artifact_uri (run_id : string) (path : option string)
    : PyResult string :=
  Return ("runs:/" +:+ run_id +:+ "/" +:+ default "" path).

Definition example_missing_tracker_error : PyExn :=
  OtherError "RuntimeError" "no MLflow experiment tracker in the stack".

(** Three parameter sets: a run id and a source URI given; a run id given
    and the source left to the tracking server; the same with a model name
    under which nothing was logged. *)
Definition example_params_explicit : MLFlowRegistryParameters :=
  mkMLFlowRegistryParameters "m" None None (Some "model")
    (Some "s3://bucket/model") None None (Some "abc123") None None None.

Definition example_params_tracked : MLFlowRegistryParameters :=
  mkMLFlowRegistryParameters "m" None None (Some "model")
    None None None (Some "abc123") None None None.

Definition example_params_untracked : MLFlowRegistryParameters :=
  mkMLFlowRegistryParameters "m" None None (Some "other")
    None None None (Some "abc123") None None None.

(** A parameter set that names a run unknown to the client, and one that
    leaves the run to a tracker lookup that finds nothing. *)
Definition example_params_bad_run : MLFlowRegistryParameters :=
  mkMLFlowRegistryParameters "m" None None (Some "model")
    None None None (Some "zzz") None None None.

Definition example_params_no_run : MLFlowRegistryParameters :=
  mkMLFlowRegistryParameters "m" None None (Some "model")
    None (Some "elsewhere") None None None None None.

End MLFlowRegistryStep.

(** ** The Terraform ZenML server service *)

Module TerraformZenServer.
Import EvidentlyReport.

(** The files on disk: path to content. *)
Abbreviation Files := (gmap string string).

Section Service.

(** The type of the JSON values of the variables file and of the server
    configuration's fields. *)
Variable Value : Type.

(** [json.dump], [os.path.join], and [TerraformService.get_vars], which
    reads the variables of a directory as a dictionary. *)
Variable json_dump : gmap string Value -> string.
Variable path_join : string -> string -> string.
Variable get_vars : Files -> string -> PyResult (gmap string Value).

(** [class TerraformZenServerConfig]: the two paths inherited from
    [TerraformServiceConfig], and [server] as [self.config.server.dict()]
    gives it. *)
Record TerraformZenServerConfig : Type := mkTerraformZenServerConfig {
  directory_path : string;
  variables_file_path : string;
  server : gmap string Value
}.

(** The loop of [_copy_config_values]:
[[
    for key in server_config.keys() & variables.keys():
        variables[key] = server_config[key]
]]
    The keys come from the intersection, so [server_config[key]] is always
    there. *)
Definition update_variables
    (server_config variables : gmap string Value) : gmap string Value :=
  foldl
    (fun variables key =>
       match server_config !! key with
       | Some x => <[key := x]> variables
       | None => variables
       end)
    variables
    (elements (dom server_config ∩ dom variables)).

(** [TerraformZenServer._write_to_variables_file] *)
Definition _write_to_variables_file
    (config : TerraformZenServerConfig) (variables : gmap string Value)
    (files : Files) : Files :=
  <[path_join (directory_path config) (variables_file_path config)
      := json_dump variables]> files.

(** [TerraformZenServer._copy_config_values] *)
Definition _copy_config_values
    (config : TerraformZenServerConfig) (files : Files) : PyResult Files :=
  variables ← get_vars files (directory_path config);
  let server_config := server config in
  let variables := update_variables server_config variables in
  Return (_write_to_variables_file config variables files).

End Service.

Arguments mkTerraformZenServerConfig {Value}.
Arguments directory_path {Value}.
Arguments variables_file_path {Value}.
Arguments server {Value}.
Arguments update_variables {Value}.
Arguments _write_to_variables_file {Value}.
Arguments _copy_config_values {Value}.

(** A variables file and a server configuration with one common key, for
    the examples. *)
Definition example_variables : gmap string string :=
  <["region" := "eu-west-1"]> (<["namespace" := "zenml"]> ∅).

Definition example_server_config : gmap string string :=
  <["namespace" := "production"]> (<["log_level" := "ERROR"]> ∅).

End TerraformZenServer.

(** ** Command line helpers *)

Module CliUtils.
Import Stdlib.Strings.Ascii.
Import EvidentlyReport.

(** An [AssertionError] with its message. *)
Definition AssertionError (msg : string) : PyExn :=
  OtherError "AssertionError" msg.

(** [s.split(sep)] for a separator of one character: the pieces between
    the occurrences of the separator, empty pieces included. *)
Fixpoint split (sep : Ascii.ascii) (s : string) : list string :=
  match s with
  | EmptyString => [EmptyString]
  | String x s' =>
      if decide (x = sep) then EmptyString :: split sep s'
      else
        match split sep s' with
        | piece :: pieces => String x piece :: pieces
        | [] => [String x EmptyString]
        end
  end.

(** [s.lstrip(chars)] where [chars] holds the one character [c], as in
    [a.lstrip("--")]: every leading [c] goes. *)
Fixpoint lstrip (c : Ascii.ascii) (s : string) : string :=
  match s with
  | EmptyString => EmptyString
  | String x s' => if decide (x = c) then lstrip c s' else s
  end.

(** [c in s] *)
Fixpoint contains (c : Ascii.ascii) (s : string) : bool :=
  match s with
  | EmptyString => false
  | String x s' => bool_decide (x = c) || contains c s'
  end.

(** The double quote character, as a string. *)
Definition dquote : string := String (Ascii.ascii_of_nat 34) EmptyString.

Definition warning_message : string :=
  "Please provide args with a proper "
  +:+ "identifier as the key and the following structure: "
  +:+ "--custom_argument=" +:+ dquote +:+ "value" +:+ dquote.

(** Unpacking [k, v] (or [k, _]) from one element of [p_args]. *)
Definition unpack2 (p : list string) : PyResult (string * string) :=
  match p with
  | [] => Raise (ValueError "not enough values to unpack (expected 2, got 0)")
  | [_] => Raise (ValueError "not enough values to unpack (expected 2, got 1)")
  | [k; v] => Return (k, v)
  | _ => Raise (ValueError "too many values to unpack (expected 2)")
  end.

(** The dict comprehension [{k: v for k, v in p_args}], filling [acc]: a
    later pair replaces an earlier one with the same key. *)
Fixpoint dict_of (p_args : list (list string)) (acc : gmap string string)
    : PyResult (gmap string string) :=
  match p_args with
  | [] => Return acc
  | p :: rest => kv ← unpack2 p; dict_of rest (<[kv.1 := kv.2]> acc)
  end.

(** The argument the warning message asks for: two dashes, the key, an
    equals sign, the value. *)
Definition option_arg (kv : string * string) : string :=
  "--" +:+ kv.1 +:+ "=" +:+ kv.2.

Section Parse.

(** [str.isidentifier] *)
Variable isidentifier : string -> bool.

(** [all(k.isidentifier() for k, _ in p_args)] *)
Fixpoint all_identifier (p_args : list (list string)) : PyResult bool :=
  match p_args with
  | [] => Return true
  | p :: rest =>
      kv ← unpack2 p;
      if isidentifier kv.1 then all_identifier rest else Return false
  end.

(** [parse_unknown_options] *)
Definition parse_unknown_options (args : list string)
    : PyResult (gmap string string) :=
  if negb (forallb (String.prefix "--") args) then
    Raise (AssertionError warning_message)
  else if negb (forallb (fun a => bool_decide (length (split "="%char a) = 2))
                  args) then
    Raise (AssertionError warning_message)
  else
    let p_args := (fun a => split "="%char (lstrip "-"%char a)) <$> args in
    identifiers ← all_identifier p_args;
    if negb identifiers then Raise (AssertionError warning_message)
    else
      r_args ← dict_of p_args ∅;
      if negb (bool_decide (length p_args = size r_args)) then
        Raise (AssertionError "Replicated arguments!")
      else Return r_args.

(** A key and value the parser takes: the key is an identifier, and, as
    every identifier, neither starts with a dash nor holds an equals sign;
    the value holds no equals sign. *)
Definition well_formed (kv : string * string) : Prop :=
  isidentifier kv.1 = true /\
  String.prefix "-" kv.1 = false /\
  contains "="%char kv.1 = false /\
  contains "="%char kv.2 = false.

End Parse.

(** An identifier test for the examples: non-empty, letters, digits and
    underscores only, no digit first. *)
Definition ascii_identifier_char (first : bool) (c : Ascii.ascii) : bool :=
  let n := Ascii.nat_of_ascii c in
  (Nat.leb 97 n && Nat.leb n 122) || (Nat.leb 65 n && Nat.leb n 90)
  || Nat.eqb n 95 || (negb first && Nat.leb 48 n && Nat.leb n 57).

Fixpoint ascii_identifier_tail (s : string) : bool :=
  match s with
  | EmptyString => true
  | String c s' => ascii_identifier_char false c && ascii_identifier_tail s'
  end.

Definition ascii_identifier (s : string) : bool :=
  match s with
  | EmptyString => false
  | String c s' => ascii_identifier_char true c && ascii_identifier_tail s'
  end.

End CliUtils.

(** A variables file format for the examples: entries [key=value], each
    closed by a semicolon. *)
Module TerraformExamples.
Import Stdlib.Strings.Ascii.
Import EvidentlyReport TerraformZenServer CliUtils.

Definition example_json_dump (variables : gmap string string) : string :=
  String.concat ""
    ((fun kv => kv.1 +:+ "=" +:+ kv.2 +:+ ";") <$> map_to_list variables).

Definition example_json_load (content : string) : gmap string string :=
  list_to_map
    (omap
       (fun entry =>
          match split "="%char entry with
          | [k; v] => Some (k, v)
          | _ => None
          end)
       (split ";"%char content)).

Definition example_path_join (a b : string) : string := a +:+ "/" +:+ b.

Definition example_get_vars (files : gmap string string) (dir : string)
    : PyResult (gmap string string) :=
  match files !! example_path_join dir "values.tfvars.json" with
  | Some content => Return (example_json_load content)
  | None =>
      Raise (OtherError "FileNotFoundError"
               (example_path_join dir "values.tfvars.json"))
  end.

Definition example_config : TerraformZenServerConfig string :=
  mkTerraformZenServerConfig "/recipes/server" "values.tfvars.json"
    example_server_config.

Definition example_files : gmap string string :=
  <["/recipes/server/values.tfvars.json"
      := example_json_dump example_variables]> ∅.

End TerraformExamples.

(** ** Tables on the command line *)

Module CliTables.

(** A dictionary with its insertion order: the items in order, every key
    once. *)
Definition odict (V : Type) : Type := list (string * V).

(** [d.get(key)] *)
Fixpoint odict_get {V : Type} (d : odict V) (key : string) : option V :=
  match d with
  | [] => None
  | (k, v) :: d' => if decide (k = key) then Some v else odict_get d' key
  end.

(** One step of the comprehension [{key: None for ...}]: a new key goes to
    the end, a key already there stays where it is. *)
Definition add_key (keys : list string) (key : string) : list string :=
  if bool_decide (key ∈ keys) then keys else keys ++ [key].

(** What [print_table] hands to the table of the [rich] library: the
    headers, the rows of cells, and whether the first column is centred. *)
Record TableLayout (Header Cell : Type) : Type := mkTableLayout {
  headers : list Header;
  rows : list (list (option Cell));
  first_column_centered : bool
}.
Arguments mkTableLayout {Header Cell}.
Arguments headers {Header Cell}.
Arguments rows {Header Cell}.
Arguments first_column_centered {Header Cell}.

Section Tables.

Variable Cell : Type.

(** A column configuration of the [rich] library, and [str.upper]. *)
Variable Column : Type.
Variable upper : string -> string.

(** [column_keys] of [print_table]:
    [{key: None for dict_ in obj for key in dict_}], as its keys in
    order. *)
Definition column_keys (obj : list (odict Cell)) : list string :=
  foldl (fun keys dict_ => foldl add_key keys dict_.*1) [] obj.

(** [print_table]: a header is the column configuration passed under the
    key, or else the key in upper case. *)
Definition print_table
    (obj : list (odict Cell)) (columns : gmap string Column)
    : TableLayout (Column + string) Cell :=
  let column_keys := column_keys obj in
  let column_names :=
    (fun key =>
       match columns !! key with
       | Some column => inl column
       | None => inr (upper key)
       end) <$> column_keys in
  let rows :=
    (fun dict_ => (fun key => odict_get dict_ key) <$> column_keys)
      <$> obj in
  mkTableLayout column_names rows
    (bool_decide (1 < length column_names)).

End Tables.

Arguments column_keys {Cell}.
Arguments print_table {Cell Column}.

Section Secrets.

(** The type of a secret's values, [str] on them, and [str.upper]. *)
Variable SecretValue : Type.
Variable str : SecretValue -> string.
Variable upper : string -> string.

(** [get_secret_value], the local function of [pretty_print_secret]. *)
Definition get_secret_value (hide_secret : bool)
    (value : option SecretValue) : string :=
  match value with
  | None => ""
  | Some v => if hide_secret then "***" else str v
  end.

(** [pretty_print_secret]: [secret.name], [secret.content] and the
    flag. *)
Definition pretty_print_secret
    (secret_name : string) (content : odict (option SecretValue))
    (hide_secret : bool) : TableLayout (Empty_set + string) string :=
  let stack_dicts :=
    (fun item =>
       [("SECRET_NAME", secret_name);
        ("SECRET_KEY", item.1);
        ("SECRET_VALUE", get_secret_value hide_secret item.2)])
      <$> content in
  print_table upper stack_dicts ∅.

End Secrets.

Arguments get_secret_value {SecretValue}.
Arguments pretty_print_secret {SecretValue}.

(** A secret with a set and an unset value, for the examples. *)
Definition example_secret_content : odict (option string) :=
  [("user", Some "admin"); ("token", None)].

End CliTables.

(** ** The PyTorch materializer *)

Module PyTorchMaterializer.
Import Stdlib.Strings.Ascii.
Import EvidentlyReport.

Definition DEFAULT_FILENAME : string := "entire_model.pt".
Definition CHECKPOINT_FILENAME : string := "checkpoint.pt".

Section Materializer.

(** A [torch.nn.Module], a [TorchDict], and the state dictionary of a
    module. *)
Variable Module_ : Type.
Variable TorchDict : Type.
Variable StateDict : Type.
Variable state_dict : Module_ -> StateDict.

(** [Union[Module, TorchDict]] *)
Inductive Model : Type :=
  | AModule (m : Module_)
  | ATorchDict (d : TorchDict).

(** What [torch.save] is given: a model or a state dictionary. *)
Inductive Saved : Type :=
  | SavedModel (model : Model)
  | SavedStateDict (sd : StateDict).

(** [torch.save] and [torch.load] on the content of a file,
    [os.path.join], and the two methods of [BaseMaterializer] that the
    materializer calls first. *)
Variable torch_save : Saved -> string.
Variable torch_load : string -> PyResult Saved.
Variable path_join : string -> string -> string.
Variable base_handle_input : PyResult unit.
Variable base_handle_return : Model -> PyResult unit.

(** [fileio.open(path, "rb")] followed by reading: a missing file is a
    [FileNotFoundError]. *)
Definition read_file (files : gmap string string) (path : string)
    : PyResult string :=
  match files !! path with
  | Some content => Return content
  | None => Raise (OtherError "FileNotFoundError" path)
  end.

(** [PyTorchMaterializer.handle_input], for the artifact at [uri]. *)
Definition handle_input (uri : string) (files : gmap string string)
    : PyResult Saved :=
  _ ← base_handle_input;
  content ← read_file files (path_join uri DEFAULT_FILENAME);
  torch_load content.

(** [PyTorchMaterializer.handle_return], for the artifact at [uri]. *)
Definition handle_return (uri : string) (model : Model)
    (files : gmap string string) : PyResult (gmap string string) :=
  _ ← base_handle_return model;
  let files :=
    <[path_join uri DEFAULT_FILENAME := torch_save (SavedModel model)]>
      files in
  match model with
  | AModule m =>
      Return
        (<[path_join uri CHECKPOINT_FILENAME
             := torch_save (SavedStateDict (state_dict m))]> files)
  | ATorchDict _ => Return files
  end.

End Materializer.

Arguments AModule {Module_ TorchDict}.
Arguments ATorchDict {Module_ TorchDict}.
Arguments SavedModel {Module_ TorchDict StateDict}.
Arguments SavedStateDict {Module_ TorchDict StateDict}.
Arguments handle_input {Module_ TorchDict StateDict}.
Arguments handle_return {Module_ TorchDict StateDict}.

(** A toy serialisation for the examples: a module is a list of weights,
    its state dictionary the same list, a dictionary a string. *)
Definition example_save (x : @Saved (list string) string (list string))
    : string :=
  match x with
  | SavedModel (AModule m) => "M" +:+ String.concat "," m
  | SavedModel (ATorchDict d) => "D" +:+ d
  | SavedStateDict sd => "S" +:+ String.concat "," sd
  end.

Definition example_load (content : string)
    : PyResult (@Saved (list string) string (list string)) :=
  match content with
  | String c rest =>
      if decide (c = "D"%char) then Return (SavedModel (ATorchDict rest))
      else if decide (c = "M"%char) then
        Return (SavedModel (AModule (CliUtils.split ","%char rest)))
      else if decide (c = "S"%char) then
        Return (SavedStateDict (CliUtils.split ","%char rest))
      else Raise (OtherError "UnpicklingError" content)
  | EmptyString => Raise (OtherError "EOFError" "")
  end.

Definition example_path_join (a b : string) : string := a +:+ "/" +:+ b.

End PyTorchMaterializer.

(** ** The pipeline run DAG visualizer *)

Module PipelineRunDagVisualizer.

Section Visualizer.

(** The type of step ids and [str] on it. *)
Variable Id : Type.
Variable str : Id -> string.

(** A step of the run, as far as the visualizer reads it. *)
Record StepView : Type := mkStepView {
  step_id : Id;
  step_name : string;
  parents_step_ids : list Id
}.

(** A line of the body of a [graphviz.Digraph]. *)
Inductive Statement : Type :=
  | Node (name label : string)
  | Edge (tail_name head_name : string).

(** [graphviz.Digraph]: its comment and its body, in the order of the
    calls. *)
Record Digraph : Type := mkDigraph {
  comment : string;
  body : list Statement
}.

(** [dot.node(name, label)] and [dot.edge(tail_name, head_name)] *)
Definition node (name label : string) (dot : Digraph) : Digraph :=
  mkDigraph (comment dot) (body dot ++ [Node name label]).

Definition edge (tail_name head_name : string) (dot : Digraph) : Digraph :=
  mkDigraph (comment dot) (body dot ++ [Edge tail_name head_name]).

(** [PipelineRunDagVisualizer.visualize], up to the returned graph; the
    rendering into a temporary file is left out. *)
Definition visualize (run_name : string) (steps : list StepView) : Digraph :=
  let dot := mkDigraph run_name [] in
  foldl
    (fun dot step =>
       let dot := node (str (step_id step)) (step_name step) dot in
       foldl
         (fun dot parent_step_id =>
            edge (str parent_step_id) (str (step_id step)) dot)
         dot (parents_step_ids step))
    dot steps.

End Visualizer.

Arguments mkStepView {Id}.
Arguments step_id {Id}.
Arguments step_name {Id}.
Arguments parents_step_ids {Id}.
Arguments visualize {Id}.

(** The names of the declared nodes, and the edges, of a body. *)
Definition node_names (stmts : list Statement) : list string :=
  omap (fun s => match s with Node n _ => Some n | Edge _ _ => None end) stmts.

Definition edges (stmts : list Statement) : list (string * string) :=
  omap (fun s => match s with Edge t h => Some (t, h) | Node _ _ => None end)
    stmts.

End PipelineRunDagVisualizer.

(** * Properties of [ModelVersion] construction *)

Module ModelVersionFacts.
Import BaseModelRegistry.

Lemma dict_falsy_empty {V : Type} (d : gmap string V) :
  dict_truthy d = false -> d = ∅.
Proof.
  unfold dict_truthy. intros H.
  apply bool_decide_eq_false in H.
  destruct (decide (d = ∅)) as [->|Hne]; [reflexivity | contradiction].
Qed.

Lemma extract_tags_lookup key assign st k :
  (extract key assign st).2 !! k
  = if decide (key = k) then None else st.2 !! k.
Proof.
  unfold extract. destruct (st.2 !! key) eqn:E; simpl.
  - apply lookup_delete.
  - case_decide; [subst; exact E | reflexivity].
Qed.

Lemma extract_metadata key assign st :
  (extract key assign st).1
  = match st.2 !! key with
    | Some x => assign x st.1
    | None => st.1
    end.
Proof. unfold extract. destruct (st.2 !! key); reflexivity. Qed.

Lemma extract_absent key assign st :
  st.2 !! key = None -> extract key assign st = st.
Proof. unfold extract. intros ->. reflexivity. Qed.

Lemma elem_of_reserved_keys key :
  key ∈ reserved_keys <->
  key = "zenml_version" \/ key = "zenml_pipeline_run_id" \/
  key = "zenml_pipeline_name" \/ key = "zenml_step_name".
Proof.
  unfold reserved_keys. rewrite !elem_of_cons, elem_of_nil. tauto.
Qed.

(** What the validator leaves in [version_tags], key by key. *)
Lemma validated_tags_lookup values k :
  v_version_tags (fill_in_out_zenml_metadata values) !! k
  = if decide (k ∈ reserved_keys) then None
    else v_version_tags values !! k.
Proof.
  unfold fill_in_out_zenml_metadata.
  destruct (dict_truthy (v_version_tags values)) eqn:Ht; simpl.
  - rewrite !extract_tags_lookup. simpl.
    destruct (decide (k ∈ reserved_keys)) as [Hin|Hout].
    + apply elem_of_reserved_keys in Hin.
      destruct Hin as [-> | [-> | [-> | ->]]]; reflexivity.
    + rewrite elem_of_reserved_keys in Hout.
      repeat case_decide; subst; try reflexivity; exfalso; tauto.
  - apply dict_falsy_empty in Ht. rewrite Ht, lookup_empty.
    case_decide; reflexivity.
Qed.

(** What the validator leaves in [zenml_metadata], attribute by attribute:
    the tag of that name if there is one, else what was there. *)
Lemma validated_metadata values :
  exists md,
    v_zenml_metadata (fill_in_out_zenml_metadata values) = Some md /\
    forall key, key ∈ reserved_keys ->
      metadata_attr md key
      = match v_version_tags values !! key with
        | Some x => Some x
        | None =>
            metadata_attr
              (match v_zenml_metadata values with
               | Some m => m
               | None => ZenMLModelMetadata_default
               end) key
        end.
Proof.
  unfold fill_in_out_zenml_metadata.
  set (md0 := match v_zenml_metadata values with
              | Some m => m
              | None => ZenMLModelMetadata_default
              end).
  set (t := v_version_tags values).
  destruct (dict_truthy t) eqn:Ht; simpl.
  - eexists; split; [reflexivity |].
    intros key Hkey. apply elem_of_reserved_keys in Hkey.
    rewrite !extract_metadata, !extract_tags_lookup. simpl.
    destruct (t !! "zenml_version") eqn:E1,
             (t !! "zenml_pipeline_run_id") eqn:E2,
             (t !! "zenml_pipeline_name") eqn:E3,
             (t !! "zenml_step_name") eqn:E4;
      destruct Hkey as [-> | [-> | [-> | ->]]]; simpl;
      rewrite ?E1, ?E2, ?E3, ?E4; reflexivity.
  - exists md0; split; [reflexivity |].
    intros key _. apply dict_falsy_empty in Ht.
    rewrite Ht, lookup_empty. reflexivity.
Qed.

Lemma ModelVersion_new_tags a k :
  version_tags (ModelVersion_new a) !! k
  = if decide (k ∈ reserved_keys) then None else supplied_tags a !! k.
Proof.
  unfold ModelVersion_new, of_values; simpl.
  apply validated_tags_lookup.
Qed.

Lemma ModelVersion_new_metadata a :
  exists md,
    zenml_metadata (ModelVersion_new a) = Some md /\
    forall key, key ∈ reserved_keys ->
      metadata_attr md key
      = match supplied_tags a !! key with
        | Some x => Some x
        | None => metadata_attr (initial_metadata a) key
        end.
Proof.
  unfold ModelVersion_new, of_values; simpl.
  destruct (validated_metadata (field_values a)) as (md & Hmd & Hattr).
  exists md; split; [exact Hmd |].
  intros key Hkey. rewrite (Hattr key Hkey). simpl.
  unfold supplied_tags, initial_metadata.
  destruct (arg_or ∅ (a_version_tags a) !! key); [reflexivity |].
  destruct (arg_or (Some ZenMLModelMetadata_default) (a_zenml_metadata a));
    reflexivity.
Qed.

(** The validator touches nothing but the tags and the metadata. *)
Lemma ModelVersion_new_stage a :
  version_stage (ModelVersion_new a) = arg_or NONE (a_version_stage a).
Proof.
  unfold ModelVersion_new, of_values, fill_in_out_zenml_metadata; simpl.
  destruct (dict_truthy _); reflexivity.
Qed.

Lemma ModelVersion_new_source_uri a :
  model_source_uri (ModelVersion_new a) = a_model_source_uri a.
Proof.
  unfold ModelVersion_new, of_values, fill_in_out_zenml_metadata; simpl.
  destruct (dict_truthy _); reflexivity.
Qed.

(** Without a reserved tag the validator is the identity on metadata. *)
Lemma validated_metadata_no_reserved values :
  (forall key, key ∈ reserved_keys -> v_version_tags values !! key = None) ->
  v_zenml_metadata (fill_in_out_zenml_metadata values)
  = Some (match v_zenml_metadata values with
          | Some m => m
          | None => ZenMLModelMetadata_default
          end).
Proof.
  intros Hnone. unfold fill_in_out_zenml_metadata.
  destruct (dict_truthy (v_version_tags values)); simpl; [| reflexivity].
  rewrite (extract_absent "zenml_version")
    by (apply Hnone, elem_of_reserved_keys; tauto).
  rewrite (extract_absent "zenml_pipeline_run_id")
    by (apply Hnone, elem_of_reserved_keys; tauto).
  rewrite (extract_absent "zenml_pipeline_name")
    by (apply Hnone, elem_of_reserved_keys; tauto).
  rewrite (extract_absent "zenml_step_name")
    by (apply Hnone, elem_of_reserved_keys; tauto).
  reflexivity.
Qed.

(** The tag example of the spec: the reserved key goes to the metadata and
    only the other tag stays. *)
Example tagged_registration_example :
  zenml_metadata (ModelVersion_new example_tagged_args)
  = Some (mkZenMLModelMetadata None None (Some "p1") None) /\
  version_tags (ModelVersion_new example_tagged_args)
  = <["color" := "red"]> ∅.
Proof. split; vm_compute; reflexivity. Qed.

(** C1: for every constructor call, each reserved key present in the
    supplied [version_tags] has its value in the attribute of that name of
    the constructed [zenml_metadata]; the constructed [version_tags] holds
    no reserved key; and every other tag is kept as supplied. *)
Theorem reserved_tags_move_to_metadata (a : ModelVersionArgs) :
  (forall key x,
     key ∈ reserved_keys -> supplied_tags a !! key = Some x ->
     exists md,
       zenml_metadata (ModelVersion_new a) = Some md /\
       metadata_attr md key = Some x) /\
  (forall key,
     key ∈ reserved_keys -> version_tags (ModelVersion_new a) !! key = None) /\
  (forall key,
     key ∉ reserved_keys ->
     version_tags (ModelVersion_new a) !! key = supplied_tags a !! key).
Proof.
  split; [| split].
  - intros key x Hkey Hx.
    destruct (ModelVersion_new_metadata a) as (md & Hmd & Hattr).
    exists md; split; [exact Hmd |].
    rewrite (Hattr key Hkey), Hx. reflexivity.
  - intros key Hkey. rewrite ModelVersion_new_tags.
    case_decide; [reflexivity | contradiction].
  - intros key Hkey. rewrite ModelVersion_new_tags.
    case_decide; [contradiction | reflexivity].
Qed.

(** C8: a constructed [ModelVersion] always has a [zenml_metadata] object;
    leaving the argument out, or passing [None], builds the very object
    that passing [ZenMLModelMetadata()] builds, and when no reserved tag is
    supplied that metadata is the default object itself. *)
Theorem zenml_metadata_never_none (a : ModelVersionArgs) :
  is_Some (zenml_metadata (ModelVersion_new a)) /\
  ModelVersion_new (with_zenml_metadata a Omitted)
  = ModelVersion_new
      (with_zenml_metadata a (Passed (Some ZenMLModelMetadata_default))) /\
  ModelVersion_new (with_zenml_metadata a (Passed None))
  = ModelVersion_new
      (with_zenml_metadata a (Passed (Some ZenMLModelMetadata_default))) /\
  ((forall key, key ∈ reserved_keys -> supplied_tags a !! key = None) ->
   zenml_metadata (ModelVersion_new (with_zenml_metadata a (Passed None)))
   = Some ZenMLModelMetadata_default).
Proof.
  split; [| split; [| split]].
  - destruct (ModelVersion_new_metadata a) as (md & Hmd & _).
    rewrite Hmd. eexists; reflexivity.
  - reflexivity.
  - reflexivity.
  - intros Hnone. unfold ModelVersion_new, of_values; simpl.
    apply (validated_metadata_no_reserved
             (field_values (with_zenml_metadata a (Passed None)))).
    exact Hnone.
Qed.

(** C9: when the call passes an explicit [zenml_metadata] whose attribute
    is set and also a tag under the reserved key of that attribute, the
    constructed metadata has the tag's value there, not the explicit one. *)
Theorem tag_overwrites_explicit_metadata
    (a : ModelVersionArgs) (m : ZenMLModelMetadata) (key x y : string) :
  a_zenml_metadata a = Passed (Some m) ->
  key ∈ reserved_keys ->
  metadata_attr m key = Some y ->
  supplied_tags a !! key = Some x ->
  exists md,
    zenml_metadata (ModelVersion_new a) = Some md /\
    metadata_attr md key = Some x /\
    (x <> y -> metadata_attr md key <> metadata_attr m key).
Proof.
  intros Hm Hkey Hy Hx.
  destruct (ModelVersion_new_metadata a) as (md & Hmd & Hattr).
  exists md; split; [exact Hmd |].
  rewrite (Hattr key Hkey), Hx, Hy.
  split; [reflexivity | congruence].
Qed.

Lemma tag_overwrites_explicit_metadata_witness :
  a_zenml_metadata example_conflicting_args
  = Passed (Some example_explicit_metadata) /\
  "zenml_pipeline_name" ∈ reserved_keys /\
  metadata_attr example_explicit_metadata "zenml_pipeline_name"
  = Some "explicit" /\
  supplied_tags example_conflicting_args !! "zenml_pipeline_name"
  = Some "p1" /\
  exists md,
    zenml_metadata (ModelVersion_new example_conflicting_args) = Some md /\
    metadata_attr md "zenml_pipeline_name" = Some "p1" /\
    ("p1" <> "explicit" ->
     metadata_attr md "zenml_pipeline_name"
     <> metadata_attr example_explicit_metadata "zenml_pipeline_name").
Proof.
  assert (Hin : "zenml_pipeline_name" ∈ reserved_keys)
    by (apply elem_of_reserved_keys; tauto).
  repeat split; try reflexivity; try exact Hin.
  apply (tag_overwrites_explicit_metadata example_conflicting_args
           example_explicit_metadata "zenml_pipeline_name" "p1" "explicit");
    [reflexivity | exact Hin | reflexivity | reflexivity].
Defined.

End ModelVersionFacts.

(** * Properties of the registry operations *)

Module ModelRegistryFacts.
Import BaseModelRegistry ModelRegistry ModelVersionFacts.

Create HintDb registry_ops.
#[local] Hint Unfold register_model get_model delete_model update_model
  get_model_version update_model_version delete_model_version
  register_model_version list_model_versions check_model_exists
  bind read write ret raise : registry_ops.

Ltac run_op := repeat (progress (autounfold with registry_ops; simpl)).

Example example_registry_versions :
  dom (versions example_registry) = {[("m", "1"); ("m", "2")]}.
Proof. vm_compute. reflexivity. Qed.

Lemma get_model_found r nm reg :
  registrations r !! nm = Some reg -> get_model nm r = (Ok reg, r).
Proof. intros H. run_op. rewrite H. reflexivity. Qed.

Lemma get_model_missing r nm :
  registrations r !! nm = None -> get_model nm r = (Fail NotFoundError, r).
Proof. intros H. run_op. rewrite H. reflexivity. Qed.

Lemma get_model_version_found r nm v mv :
  versions r !! (nm, v) = Some mv -> get_model_version nm v r = (Ok mv, r).
Proof. intros H. run_op. rewrite H. reflexivity. Qed.

Lemma get_model_version_missing r nm v :
  versions r !! (nm, v) = None ->
  get_model_version nm v r = (Fail NotFoundError, r).
Proof. intros H. run_op. rewrite H. reflexivity. Qed.

(** Reading operations leave the registry as it is. *)
Lemma get_model_version_pure r nm v :
  (get_model_version nm v r).2 = r.
Proof. run_op. destruct (versions r !! (nm, v)); reflexivity. Qed.

Lemma every_stage_listed (s : ModelVersionStage) : s ∈ all_stages.
Proof. unfold all_stages. destruct s; set_solver. Qed.

(** The outcome of an update, written out. *)
Lemma update_model_version_found r nm v vdesc vtags stage old :
  versions r !! (nm, v) = Some old ->
  exists mv,
    update_model_version nm v vdesc vtags stage r
    = (Ok mv, mkRegistry (registrations r) (<[(nm, v) := mv]> (versions r)))
    /\ version_stage mv = provided stage (version_stage old)
    /\ model_source_uri mv = model_source_uri old.
Proof.
  intros H. run_op. rewrite H. simpl.
  eexists; split; [reflexivity |].
  rewrite ModelVersion_new_stage, ModelVersion_new_source_uri. split; reflexivity.
Qed.

(** The outcome of registering a version that is not there yet. *)
Lemma register_model_version_fresh
    allocate r nm desc tgs uri ver vdesc vtags rmeta zv zrun zpipe zstep :
  let v := provided ver (allocate (versions r) nm) in
  versions r !! (nm, v) = None ->
  exists mv regs,
    register_model_version allocate nm desc tgs uri ver vdesc vtags rmeta
      zv zrun zpipe zstep r
    = (Ok mv, mkRegistry regs (<[(nm, v) := mv]> (versions r)))
    /\ version_stage mv = NONE
    /\ model_source_uri mv = uri
    /\ is_Some (regs !! nm).
Proof.
  intros v H. subst v. run_op.
  destruct ver as [v|]; simpl in *; rewrite H;
  destruct (registrations r !! nm) as [reg|] eqn:Hreg; simpl.
  all: try rewrite Hreg; simpl.
  all: eexists _, _; (split; [reflexivity |]).
  all: rewrite ModelVersion_new_stage, ModelVersion_new_source_uri; simpl.
  all: rewrite ?Hreg, ?lookup_insert_eq; eauto.
Qed.

Lemma register_model_version_taken
    allocate r nm desc tgs uri ver vdesc vtags rmeta zv zrun zpipe zstep :
  is_Some (versions r !! (nm, provided ver (allocate (versions r) nm))) ->
  register_model_version allocate nm desc tgs uri ver vdesc vtags rmeta
    zv zrun zpipe zstep r
  = (Fail AlreadyExistsError, r).
Proof. intros [mv H]. run_op. rewrite H. reflexivity. Qed.

(** C2: a version's stage is one of the four members of the enum, and a
    stage update of an existing [(name, version)] succeeds for every target
    stage, whatever the stage was; reading the version back gives that
    stage. *)
Theorem any_stage_transition_accepted
    (r : Registry) (nm v : string) (vdesc : option string)
    (vtags : option (gmap string string)) (s : ModelVersionStage) :
  is_Some (versions r !! (nm, v)) ->
  (forall mv : ModelVersion, version_stage mv ∈ all_stages) /\
  exists mv r',
    update_model_version nm v vdesc vtags (Some s) r = (Ok mv, r') /\
    version_stage mv = s /\
    exists mv',
      get_model_version nm v r' = (Ok mv', r') /\ version_stage mv' = s.
Proof.
  intros [old Hold]. split.
  - intros mv. apply every_stage_listed.
  - destruct (update_model_version_found r nm v vdesc vtags (Some s) old Hold)
      as (mv & Hrun & Hstage & _).
    simpl in Hstage.
    eexists mv, _; split; [exact Hrun |]. split; [exact Hstage |].
    exists mv; split; [| exact Hstage].
    apply get_model_version_found. simpl. apply lookup_insert_eq.
Qed.

Lemma any_stage_transition_accepted_witness :
  is_Some (versions example_registry !! ("m", "1")) /\
  ((forall mv : ModelVersion, version_stage mv ∈ all_stages) /\
   exists mv r',
     update_model_version "m" "1" None None (Some PRODUCTION) example_registry
     = (Ok mv, r') /\
     version_stage mv = PRODUCTION /\
     exists mv',
       get_model_version "m" "1" r' = (Ok mv', r') /\
       version_stage mv' = PRODUCTION).
Proof.
  assert (H : is_Some (versions example_registry !! ("m", "1")))
    by (eexists; vm_compute; reflexivity).
  split; [exact H |].
  apply (any_stage_transition_accepted example_registry "m" "1" None None
           PRODUCTION H).
Defined.

(** C3: registering version [v] of a name, which the abstract method does
    without a stage argument, succeeds when [(name, v)] is not registered
    yet, and after every successful call [get_model_version] returns the
    registered version, whose stage is [NONE] and whose source URI is the
    supplied one. *)
Theorem registered_version_starts_at_NONE
    (allocate : gmap (string * string) ModelVersion -> string -> string)
    (r : Registry) (nm : string) (desc : option string)
    (tgs : option (gmap string string)) (uri v : string)
    (vdesc : option string) (vtags rmeta : option (gmap string string))
    (zv zrun zpipe zstep : option string) :
  let call :=
    register_model_version allocate nm desc tgs uri (Some v) vdesc vtags
      rmeta zv zrun zpipe zstep in
  (versions r !! (nm, v) = None -> exists mv r', call r = (Ok mv, r')) /\
  (forall mv r',
     call r = (Ok mv, r') ->
     get_model_version nm v r' = (Ok mv, r') /\
     version_stage mv = NONE /\
     model_source_uri mv = uri).
Proof.
  intros call.
  assert (Hfresh : versions r !! (nm, v) = None ->
            exists mv regs,
              call r
              = (Ok mv, mkRegistry regs (<[(nm, v) := mv]> (versions r)))
              /\ version_stage mv = NONE /\ model_source_uri mv = uri).
  { intros Hnone.
    destruct (register_model_version_fresh allocate r nm desc tgs uri
                (Some v) vdesc vtags rmeta zv zrun zpipe zstep Hnone)
      as (mv & regs & Hrun & Hs & Hu & _).
    exists mv, regs. auto. }
  split.
  - intros Hnone. destruct (Hfresh Hnone) as (mv & regs & Hrun & _).
    eauto.
  - intros mv r' Hrun.
    destruct (versions r !! (nm, v)) as [old|] eqn:Hv.
    + unfold call in Hrun.
      rewrite register_model_version_taken in Hrun
        by (simpl; rewrite Hv; eauto).
      discriminate Hrun.
    + destruct (Hfresh eq_refl) as (mv0 & regs & Hrun0 & Hs & Hu).
      rewrite Hrun0 in Hrun. injection Hrun as -> <-.
      split; [| split; assumption].
      apply get_model_version_found. simpl. apply lookup_insert_eq.
Qed.

Lemma registered_version_starts_at_NONE_witness :
  versions example_registry !! ("m", "7") = None /\
  exists mv r',
    register_model_version auto_increment "m" None None "s3://bucket/c"
      (Some "7") None None None None None None None example_registry
    = (Ok mv, r') /\
    get_model_version "m" "7" r' = (Ok mv, r') /\
    version_stage mv = NONE /\
    model_source_uri mv = "s3://bucket/c".
Proof.
  assert (H : versions example_registry !! ("m", "7") = None)
    by (vm_compute; reflexivity).
  split; [exact H |].
  destruct (registered_version_starts_at_NONE auto_increment example_registry
              "m" None None "s3://bucket/c" "7" None None None None None
              None None) as [Hok Hget].
  destruct (Hok H) as (mv & r' & Hrun).
  exists mv, r'. split; [exact Hrun |]. exact (Hget mv r' Hrun).
Defined.

(** C4: deleting a registered name succeeds and removes the registration
    and every version it owns, so that reading any of them fails with
    [NotFoundError], while the registrations and versions of other names
    stay; and a failing call leaves the registry as it was. *)
Theorem delete_model_cascades_or_leaves (r : Registry) (nm : string) :
  (is_Some (registrations r !! nm) ->
   exists r',
     delete_model nm r = (Ok tt, r') /\
     registrations r' !! nm = None /\
     (forall v, versions r' !! (nm, v) = None) /\
     (forall v, get_model_version nm v r' = (Fail NotFoundError, r')) /\
     (forall nm' v, nm' <> nm ->
        registrations r' !! nm' = registrations r !! nm' /\
        versions r' !! (nm', v) = versions r !! (nm', v))) /\
  (forall e r', delete_model nm r = (Fail e, r') -> r' = r).
Proof.
  split.
  - intros [reg Hreg]. run_op. rewrite Hreg; simpl.
    eexists; split; [reflexivity |]. simpl.
    assert (Hgone : forall v,
              filter (fun kv : string * string * ModelVersion => kv.1.1 ≠ nm)
                (versions r) !! (nm, v) = None).
    { intros v. apply map_lookup_filter_None. right.
      intros mv _ Hne. apply Hne. reflexivity. }
    split; [apply lookup_delete_eq |].
    split; [exact Hgone |].
    split; [intros v; rewrite Hgone; reflexivity |].
    intros nm' v Hne. split.
    + apply lookup_delete_ne. congruence.
    + destruct (versions r !! (nm', v)) as [mv|] eqn:Hv.
      * apply map_lookup_filter_Some. split; [exact Hv | exact Hne].
      * apply map_lookup_filter_None. left. exact Hv.
  - intros e r'. run_op.
    destruct (registrations r !! nm); simpl; intros H;
      [discriminate H | injection H as _ <-; reflexivity].
Qed.

Lemma delete_model_cascades_or_leaves_witness :
  is_Some (registrations example_registry !! "m") /\
  exists r',
    delete_model "m" example_registry = (Ok tt, r') /\
    get_model_version "m" "1" r' = (Fail NotFoundError, r') /\
    get_model_version "m" "2" r' = (Fail NotFoundError, r').
Proof.
  assert (H : is_Some (registrations example_registry !! "m"))
    by (eexists; vm_compute; reflexivity).
  split; [exact H |].
  destruct (delete_model_cascades_or_leaves example_registry "m")
    as [Hdel _].
  destruct (Hdel H) as (r' & Hrun & _ & _ & Hget & _).
  exists r'. split; [exact Hrun |]. split; apply Hget.
Defined.

(** C5: registering a name that is already registered fails with
    [AlreadyExistsError]; registering a new name succeeds, [get_model] then
    returns a registration with that name, and a second registration of the
    name right after fails with [AlreadyExistsError]. *)
Theorem register_model_twice_fails
    (r : Registry) (nm : string) (desc desc' : option string)
    (tgs tgs' : option (gmap string string)) :
  (is_Some (registrations r !! nm) ->
   register_model nm desc tgs r = (Fail AlreadyExistsError, r)) /\
  (registrations r !! nm = None ->
   exists reg r',
     register_model nm desc tgs r = (Ok reg, r') /\
     name reg = nm /\
     get_model nm r' = (Ok reg, r') /\
     register_model nm desc' tgs' r' = (Fail AlreadyExistsError, r')).
Proof.
  split.
  - intros [reg Hreg]. run_op. rewrite Hreg. reflexivity.
  - intros Hnone. run_op. rewrite Hnone; simpl.
    eexists _, _; split; [reflexivity |]. simpl.
    rewrite lookup_insert_eq. auto.
Qed.

Lemma register_model_twice_fails_witness :
  registrations empty_registry !! "m" = None /\
  exists reg r',
    register_model "m" None None empty_registry = (Ok reg, r') /\
    name reg = "m" /\
    get_model "m" r' = (Ok reg, r') /\
    register_model "m" (Some "again") None r' = (Fail AlreadyExistsError, r').
Proof.
  assert (H : registrations empty_registry !! "m" = None)
    by (vm_compute; reflexivity).
  split; [exact H |].
  destruct (register_model_twice_fails empty_registry "m" None (Some "again")
              None None) as [_ Hnew].
  exact (Hnew H).
Defined.

Lemma accepts_true {A : Type} (flt : option A) (test : A -> bool) :
  accepts flt test = true <-> forall x, flt = Some x -> test x = true.
Proof.
  destruct flt as [a|]; simpl; split; intros H; try reflexivity.
  - intros x [= <-]. exact H.
  - apply H. reflexivity.
  - intros x Hx. discriminate Hx.
Qed.

Lemma version_matches_true nmf urif tf n v mv :
  version_matches nmf urif tf (n, v, mv) = true <->
  (forall x, nmf = Some x -> n = x) /\
  (forall u, urif = Some u -> model_source_uri mv = u) /\
  (forall t, tf = Some t -> t ⊆ version_tags mv).
Proof.
  unfold version_matches. rewrite !andb_true_iff, !accepts_true. simpl.
  setoid_rewrite bool_decide_eq_true. tauto.
Qed.

Lemma filter_all {A : Type} (f : A -> bool) (l : list A) :
  (forall x, f x = true) -> List.filter f l = l.
Proof.
  intros Hf. induction l as [|x l IH]; simpl; [reflexivity |].
  rewrite Hf, IH. reflexivity.
Qed.

(** The listing returns the stored versions that pass the three filters. *)
Lemma list_model_versions_elem r nmf urif tf :
  exists l,
    list_model_versions nmf urif tf r = (Ok l, r) /\
    forall mv,
      mv ∈ l <->
      exists n v,
        versions r !! (n, v) = Some mv /\
        version_matches nmf urif tf (n, v, mv) = true.
Proof.
  run_op. eexists; split; [reflexivity |].
  intros mv. rewrite list_elem_of_fmap. split.
  - intros ([[n v] mv'] & -> & Hin).
    apply list_elem_of_In, filter_In in Hin. destruct Hin as [Hin Hm].
    apply list_elem_of_In, elem_of_map_to_list in Hin.
    exists n, v. split; assumption.
  - intros (n & v & Hv & Hm).
    exists (n, v, mv). split; [reflexivity |].
    apply list_elem_of_In, filter_In. split; [| exact Hm].
    apply list_elem_of_In, elem_of_map_to_list. exact Hv.
Qed.

(** C6: the three optional filters of [list_model_versions] are applied
    together, each only when given; with none given the result is the list
    of all stored versions; with a name and a tag mapping it holds exactly
    the versions of that name whose [version_tags] include the mapping. *)
Theorem list_model_versions_filters_conjunctive (r : Registry) :
  (forall nmf urif tf,
     exists l,
       list_model_versions nmf urif tf r = (Ok l, r) /\
       forall mv,
         mv ∈ l <->
         exists n v,
           versions r !! (n, v) = Some mv /\
           (forall x, nmf = Some x -> n = x) /\
           (forall u, urif = Some u -> model_source_uri mv = u) /\
           (forall t, tf = Some t -> t ⊆ version_tags mv)) /\
  list_model_versions None None None r
  = (Ok (map_to_list (versions r)).*2, r) /\
  (forall nm t,
     exists l,
       list_model_versions (Some nm) None (Some t) r = (Ok l, r) /\
       forall mv,
         mv ∈ l <->
         exists v, versions r !! (nm, v) = Some mv /\ t ⊆ version_tags mv).
Proof.
  split; [| split].
  - intros nmf urif tf.
    destruct (list_model_versions_elem r nmf urif tf) as (l & Hrun & Hl).
    exists l; split; [exact Hrun |].
    intros mv. rewrite Hl.
    split; intros (n & v & Hv & Hm); exists n, v; (split; [exact Hv |]);
      apply (version_matches_true nmf urif tf n v mv); exact Hm.
  - run_op. rewrite filter_all by reflexivity. reflexivity.
  - intros nm t.
    destruct (list_model_versions_elem r (Some nm) None (Some t))
      as (l & Hrun & Hl).
    exists l; split; [exact Hrun |].
    intros mv. rewrite Hl. split.
    + intros (n & v & Hv & Hm).
      apply version_matches_true in Hm. destruct Hm as (Hn & _ & Ht).
      rewrite (Hn nm eq_refl) in Hv. exists v. split; [exact Hv |].
      apply Ht. reflexivity.
    + intros (v & Hv & Ht). exists nm, v. split; [exact Hv |].
      apply version_matches_true. split; [| split].
      * intros x [= <-]. reflexivity.
      * intros u Hu. discriminate Hu.
      * intros t' [= <-]. exact Ht.
Qed.

(** The listing example of the spec on the example registry: of the two
    versions of [m], the filter [env: prod] keeps the first only. *)
Example list_model_versions_example :
  match
    (list_model_versions (Some "m") None (Some (<["env" := "prod"]> ∅))
       example_registry).1
  with
  | Ok l => Some (version <$> l)
  | Fail _ => None
  end = Some [Some "1"].
Proof. vm_compute. reflexivity. Qed.

End ModelRegistryFacts.

(** * Properties of the Evidently report step *)

Module EvidentlyReportFacts.
Import EvidentlyReport.

Example drop_example :
  drop ["city"] example_frame = Return [("age", ["31"; "45"])].
Proof. vm_compute. reflexivity. Qed.

Example entrypoint_drops_ignored :
  entrypoint evidently_defaults (Return example_validator)
    example_frame example_frame (example_params (Some ["city"]))
  = Return ("age", "age").
Proof. vm_compute. reflexivity. Qed.

Example entrypoint_unknown_column :
  entrypoint evidently_defaults (Return example_validator)
    example_frame example_frame (example_params (Some ["zip"]))
  = Raise (ValueError
             "Column is not found in reference or comparison datasets").
Proof. vm_compute. reflexivity. Qed.

Example categorical_features_example :
  cm_categorical_features
    (to_evidently_column_mapping evidently_defaults example_column_mapping)
  = None /\
  cm_numerical_features
    (to_evidently_column_mapping evidently_defaults example_column_mapping)
  = Some ["age"].
Proof. split; reflexivity. Qed.

Section StepFacts.

Context (ColumnMapping_new : ColumnMapping) {Metrics ReportOptions : Type}.

Lemma ignore_columns_None
    (ref cmp : DataFrame)
    (params : EvidentlyReportParameters Metrics ReportOptions) :
  ignored_cols params = None ->
  ignore_columns ref cmp params = Return (ref, cmp).
Proof. unfold ignore_columns. intros ->. reflexivity. Qed.

Lemma ignore_columns_empty
    (ref cmp : DataFrame)
    (params : EvidentlyReportParameters Metrics ReportOptions) :
  ignored_cols params = Some [] ->
  ignore_columns ref cmp params
  = Raise (ValueError
             "Expects None or list of columns in strings, but got []").
Proof. unfold ignore_columns. intros ->. reflexivity. Qed.

(** C7, as amended: with a data validator active, an exclusion list that
    is empty but not [None] makes the step fail with Python's built-in
    [ValueError]; [None] is accepted, and the data validator then profiles
    the two datasets exactly as they were passed. *)
Theorem empty_ignored_cols_raises_ValueError
    (dv : EvidentlyDataValidator Metrics ReportOptions)
    (ref cmp : DataFrame)
    (params : EvidentlyReportParameters Metrics ReportOptions) :
  (ignored_cols params = Some [] ->
   entrypoint ColumnMapping_new (Return dv) ref cmp params
   = Raise (ValueError
              "Expects None or list of columns in strings, but got []")) /\
  (ignored_cols params = None ->
   ignore_columns ref cmp params = Return (ref, cmp) /\
   entrypoint ColumnMapping_new (Return dv) ref cmp params
   = (report ← data_profiling dv ref cmp (metrics params)
                 (to_evidently_column_mapping ColumnMapping_new
                    <$> column_mapping params)
                 (report_options params);
      Return (json report, show_data report))).
Proof.
  split.
  - intros Hempty. unfold entrypoint; simpl.
    rewrite (ignore_columns_empty ref cmp params Hempty). reflexivity.
  - intros Hnone. split; [apply ignore_columns_None; exact Hnone |].
    unfold entrypoint; simpl.
    rewrite (ignore_columns_None ref cmp params Hnone). simpl.
    destruct (column_mapping params); reflexivity.
Qed.

(** C10: the converted mapping's categorical features are the Evidently
    default whatever the configuration says, so that changing the
    configured categorical features changes nothing in the result; each of
    the ten other fields is the configured value when that is truthy and
    the Evidently default otherwise. *)
Theorem categorical_features_not_transferred (self : EvidentlyColumnMapping) :
  let default := ColumnMapping_new in
  let converted := to_evidently_column_mapping ColumnMapping_new self in
  cm_categorical_features converted = cm_categorical_features default /\
  (forall c,
     to_evidently_column_mapping ColumnMapping_new
       (with_categorical_features c self)
     = converted) /\
  cm_target converted
  = (if truthy (target self) then target self else cm_target default) /\
  cm_prediction converted
  = (if truthy (prediction self) then prediction self
     else cm_prediction default) /\
  cm_datetime converted
  = (if truthy (datetime self) then datetime self else cm_datetime default) /\
  cm_id converted
  = (if truthy (id self) then id self else cm_id default) /\
  cm_numerical_features converted
  = (if truthy (numerical_features self) then numerical_features self
     else cm_numerical_features default) /\
  cm_datetime_features converted
  = (if truthy (datetime_features self) then datetime_features self
     else cm_datetime_features default) /\
  cm_target_names converted
  = (if truthy (target_names self) then target_names self
     else cm_target_names default) /\
  cm_task converted
  = (if truthy (task self) then task self else cm_task default) /\
  cm_pos_label converted
  = (if truthy (pos_label self) then pos_label self
     else cm_pos_label default) /\
  cm_text_features converted
  = (if truthy (text_features self) then text_features self
     else cm_text_features default).
Proof.
  intros default converted. split; [reflexivity |]. split.
  - intros c. unfold converted, to_evidently_column_mapping,
      with_categorical_features. reflexivity.
  - unfold converted, default, to_evidently_column_mapping, py_or; simpl.
    repeat split.
Qed.

End StepFacts.

(** C7 as the spec words it fails: on an empty exclusion list the step does
    not fail with an exception of class [ValidationError]. *)
Lemma empty_ignored_cols_not_ValidationError :
  ~ exists e,
      entrypoint evidently_defaults (Return example_validator)
        example_frame example_frame (example_params (Some [])) = Raise e /\
      exn_class e = "ValidationError".
Proof.
  intros (e & Hrun & Hclass).
  vm_compute in Hrun. injection Hrun as <-.
  vm_compute in Hclass. discriminate Hclass.
Qed.

Lemma empty_ignored_cols_raises_ValueError_witness :
  ignored_cols (example_params (Some [])) = Some [] /\
  ignored_cols (example_params None) = None /\
  entrypoint evidently_defaults (Return example_validator)
    example_frame example_frame (example_params (Some []))
  = Raise (ValueError
             "Expects None or list of columns in strings, but got []") /\
  entrypoint evidently_defaults (Return example_validator)
    example_frame example_frame (example_params None)
  = Return ("age,city", "age,city").
Proof.
  split; [reflexivity |]. split; [reflexivity |]. split.
  - apply (empty_ignored_cols_raises_ValueError evidently_defaults
             example_validator example_frame example_frame
             (example_params (Some []))).
    reflexivity.
  - destruct (empty_ignored_cols_raises_ValueError evidently_defaults
                example_validator example_frame example_frame
                (example_params None)) as [_ Hnone].
    destruct (Hnone eq_refl) as [_ Hrun].
    rewrite Hrun. reflexivity.
Defined.

End EvidentlyReportFacts.

(** * More on the root validator *)

Module ValidatorFacts.
Import BaseModelRegistry ModelVersionFacts.

(** The validator's result is its input with new metadata and tags, and
    the new tags hold no reserved key. *)
Lemma validated_shape values :
  exists md t,
    fill_in_out_zenml_metadata values = with_metadata_and_tags values md t /\
    forall key, key ∈ reserved_keys -> t !! key = None.
Proof.
  pose proof (validated_tags_lookup values) as Htags.
  unfold fill_in_out_zenml_metadata in *.
  destruct (dict_truthy (v_version_tags values)); simpl in *.
  - eexists _, _; split; [reflexivity |].
    intros key Hkey. rewrite Htags. case_decide; [reflexivity | contradiction].
  - eexists _, _; split; [reflexivity |].
    intros key Hkey. rewrite Htags. case_decide; [reflexivity | contradiction].
Qed.

(** On values without a reserved tag the validator only fills in the
    metadata. *)
Lemma validated_no_reserved values :
  (forall key, key ∈ reserved_keys -> v_version_tags values !! key = None) ->
  fill_in_out_zenml_metadata values
  = with_metadata_and_tags values
      (match v_zenml_metadata values with
       | Some m => m
       | None => ZenMLModelMetadata_default
       end)
      (v_version_tags values).
Proof.
  intros Hnone. unfold fill_in_out_zenml_metadata.
  destruct (dict_truthy (v_version_tags values)); [| reflexivity].
  rewrite (extract_absent "zenml_version")
    by (apply Hnone, elem_of_reserved_keys; tauto).
  rewrite (extract_absent "zenml_pipeline_run_id")
    by (apply Hnone, elem_of_reserved_keys; tauto).
  rewrite (extract_absent "zenml_pipeline_name")
    by (apply Hnone, elem_of_reserved_keys; tauto).
  rewrite (extract_absent "zenml_step_name")
    by (apply Hnone, elem_of_reserved_keys; tauto).
  reflexivity.
Qed.

(** X1: validating already validated values changes nothing. *)
Theorem fill_in_out_zenml_metadata_idempotent (values : Values) :
  fill_in_out_zenml_metadata (fill_in_out_zenml_metadata values)
  = fill_in_out_zenml_metadata values.
Proof.
  destruct (validated_shape values) as (md & t & -> & Ht).
  rewrite validated_no_reserved by exact Ht.
  reflexivity.
Qed.

(** X2: the validator writes [version_tags] and [zenml_metadata] only; the
    eight other entries of [values] come out as they went in. *)
Theorem fill_in_out_zenml_metadata_frame (values : Values) :
  let validated := fill_in_out_zenml_metadata values in
  v_model_registration validated = v_model_registration values /\
  v_model_source_uri validated = v_model_source_uri values /\
  v_version_description validated = v_version_description values /\
  v_version validated = v_version values /\
  v_created_at validated = v_created_at values /\
  v_last_updated_at validated = v_last_updated_at values /\
  v_version_stage validated = v_version_stage values /\
  v_registry_metadata validated = v_registry_metadata values.
Proof.
  intros validated. subst validated.
  destruct (validated_shape values) as (md & t & -> & _).
  repeat split.
Qed.

(** X3: when the call brings no metadata of its own (the argument is left
    out, [None], or an object with no attribute set), construction loses
    nothing of the supplied tags: a reserved key's value is read back from
    the metadata attribute of that name, any other key's from
    [version_tags]. *)
Theorem supplied_tags_recoverable (a : ModelVersionArgs) :
  initial_metadata a = ZenMLModelMetadata_default ->
  exists md,
    zenml_metadata (ModelVersion_new a) = Some md /\
    forall key,
      supplied_tags a !! key
      = if decide (key ∈ reserved_keys) then metadata_attr md key
        else version_tags (ModelVersion_new a) !! key.
Proof.
  intros Hinit.
  destruct (ModelVersion_new_metadata a) as (md & Hmd & Hattr).
  exists md; split; [exact Hmd |].
  intros key. rewrite ModelVersion_new_tags.
  case_decide as Hkey; [| reflexivity].
  rewrite (Hattr key Hkey), Hinit.
  destruct (supplied_tags a !! key); [reflexivity |].
  apply elem_of_reserved_keys in Hkey.
  destruct Hkey as [-> | [-> | [-> | ->]]]; reflexivity.
Qed.

Lemma supplied_tags_recoverable_witness :
  initial_metadata example_tagged_args = ZenMLModelMetadata_default /\
  exists md,
    zenml_metadata (ModelVersion_new example_tagged_args) = Some md /\
    forall key,
      supplied_tags example_tagged_args !! key
      = if decide (key ∈ reserved_keys) then metadata_attr md key
        else version_tags (ModelVersion_new example_tagged_args) !! key.
Proof.
  split; [reflexivity |].
  apply (supplied_tags_recoverable example_tagged_args). reflexivity.
Defined.

(** X4: an explicitly passed metadata attribute survives construction
    whenever the tags have no entry under its reserved key, whatever other
    tags, reserved or not, are supplied. *)
Theorem explicit_metadata_kept_without_tag
    (a : ModelVersionArgs) (m : ZenMLModelMetadata) (key : string) :
  a_zenml_metadata a = Passed (Some m) ->
  key ∈ reserved_keys ->
  supplied_tags a !! key = None ->
  exists md,
    zenml_metadata (ModelVersion_new a) = Some md /\
    metadata_attr md key = metadata_attr m key.
Proof.
  intros Hm Hkey Hnone.
  destruct (ModelVersion_new_metadata a) as (md & Hmd & Hattr).
  exists md; split; [exact Hmd |].
  rewrite (Hattr key Hkey), Hnone.
  unfold initial_metadata. rewrite Hm. reflexivity.
Qed.

Lemma explicit_metadata_kept_without_tag_witness :
  a_zenml_metadata example_untagged_args
  = Passed (Some example_explicit_metadata) /\
  "zenml_pipeline_name" ∈ reserved_keys /\
  supplied_tags example_untagged_args !! "zenml_pipeline_name" = None /\
  exists md,
    zenml_metadata (ModelVersion_new example_untagged_args) = Some md /\
    metadata_attr md "zenml_pipeline_name" = Some "explicit".
Proof.
  assert (Hin : "zenml_pipeline_name" ∈ reserved_keys)
    by (apply elem_of_reserved_keys; tauto).
  split; [reflexivity |]. split; [exact Hin |]. split; [reflexivity |].
  apply (explicit_metadata_kept_without_tag example_untagged_args
           example_explicit_metadata "zenml_pipeline_name");
    [reflexivity | exact Hin | reflexivity].
Defined.

End ValidatorFacts.

(** * More on the Evidently report step *)

Module IgnoredColumnsFacts.
Import EvidentlyReport.

Lemma issubset_columns_true (cols : list string) (df : DataFrame) :
  issubset_columns cols df = true <-> forall c, c ∈ cols -> c ∈ columns df.
Proof.
  unfold issubset_columns. rewrite bool_decide_eq_true. split.
  - intros Hsub c Hc.
    apply (elem_of_list_to_set (C := gset string)), Hsub,
      elem_of_list_to_set, Hc.
  - intros Hall c Hc.
    apply elem_of_list_to_set, Hall,
      (elem_of_list_to_set (C := gset string)), Hc.
Qed.

Lemma issubset_columns_false (cols : list string) (df : DataFrame) :
  (exists c, c ∈ cols /\ c ∉ columns df) -> issubset_columns cols df = false.
Proof.
  intros (c & Hc & Hout).
  destruct (issubset_columns cols df) eqn:E; [| reflexivity].
  exfalso. apply Hout. exact (proj1 (issubset_columns_true cols df) E c Hc).
Qed.

Lemma filter_none {A : Type} (f : A -> bool) (l : list A) :
  (forall x, x ∈ l -> f x = false) -> List.filter f l = [].
Proof.
  induction l as [|x l IH]; simpl; intros Hf; [reflexivity |].
  rewrite (Hf x) by left. apply IH. intros y Hy. apply Hf. right. exact Hy.
Qed.

Lemma filter_sublist {A : Type} (f : A -> bool) (l : list A) :
  List.filter f l `sublist_of` l.
Proof.
  induction l as [|x l IH]; simpl; [constructor |].
  destruct (f x); constructor; exact IH.
Qed.

Lemma elem_of_filter {A : Type} (f : A -> bool) (l : list A) (x : A) :
  x ∈ List.filter f l <-> x ∈ l /\ f x = true.
Proof. rewrite !list_elem_of_In. apply filter_In. Qed.

(** With every label present, [drop] returns; it keeps the columns under
    other labels, in place. *)
Lemma drop_present (labels : list string) (df : DataFrame) :
  (forall c, c ∈ labels -> c ∈ columns df) ->
  drop labels df
  = Return (List.filter (fun c => bool_decide (c.1 ∉ labels)) df).
Proof.
  intros Hall. unfold drop.
  rewrite filter_none; [reflexivity |].
  intros c Hc. apply bool_decide_eq_false. intros Hout.
  apply Hout, Hall, Hc.
Qed.

Lemma truthy_list_nonempty {A : Type} (l : list A) :
  l <> [] -> truthy l = true.
Proof. destruct l; [congruence | reflexivity]. Qed.

Section StepFacts.

Context (ColumnMapping_new : ColumnMapping) {Metrics ReportOptions : Type}.

(** X5: a non-empty exclusion list that names a column missing from the
    reference or from the comparison dataset makes the step fail with a
    [ValueError]; the data validator is not run. *)
Theorem unknown_ignored_column_raises
    (dv : EvidentlyDataValidator Metrics ReportOptions)
    (ref cmp : DataFrame)
    (params : EvidentlyReportParameters Metrics ReportOptions)
    (cols : list string) (c : string) :
  ignored_cols params = Some cols ->
  c ∈ cols ->
  c ∉ columns ref \/ c ∉ columns cmp ->
  entrypoint ColumnMapping_new (Return dv) ref cmp params
  = Raise (ValueError
             "Column is not found in reference or comparison datasets").
Proof.
  intros Hcols Hc Hmissing.
  unfold entrypoint; simpl. unfold ignore_columns. rewrite Hcols.
  rewrite truthy_list_nonempty
    by (intros ->; apply elem_of_nil in Hc; exact Hc).
  simpl.
  destruct Hmissing as [Hout | Hout].
  - rewrite (issubset_columns_false cols ref) by eauto. reflexivity.
  - rewrite (issubset_columns_false cols cmp) by eauto.
    rewrite orb_true_r. reflexivity.
Qed.

(** X6: with a non-empty exclusion list whose columns all exist in both
    datasets, the step does not fail on the exclusion (no [KeyError] from
    [drop]): the data validator profiles two datasets that hold exactly the
    columns not excluded, each with its cells and in the original order. *)
Theorem ignored_columns_dropped
    (dv : EvidentlyDataValidator Metrics ReportOptions)
    (ref cmp : DataFrame)
    (params : EvidentlyReportParameters Metrics ReportOptions)
    (cols : list string) :
  ignored_cols params = Some cols ->
  cols <> [] ->
  (forall c, c ∈ cols -> c ∈ columns ref /\ c ∈ columns cmp) ->
  exists ref' cmp',
    ignore_columns ref cmp params = Return (ref', cmp') /\
    ref' `sublist_of` ref /\
    cmp' `sublist_of` cmp /\
    (forall col, col ∈ ref' <-> col ∈ ref /\ col.1 ∉ cols) /\
    (forall col, col ∈ cmp' <-> col ∈ cmp /\ col.1 ∉ cols) /\
    entrypoint ColumnMapping_new (Return dv) ref cmp params
    = (report ← data_profiling dv ref' cmp' (metrics params)
                  (to_evidently_column_mapping ColumnMapping_new
                     <$> column_mapping params)
                  (report_options params);
       Return (json report, show_data report)).
Proof.
  intros Hcols Hne Hall.
  set (keep := fun col : string * list string => bool_decide (col.1 ∉ cols)).
  assert (Hrun : ignore_columns ref cmp params
                 = Return (List.filter keep ref, List.filter keep cmp)).
  { unfold ignore_columns. rewrite Hcols.
    rewrite (truthy_list_nonempty cols Hne). simpl.
    rewrite (proj2 (issubset_columns_true cols ref))
      by (intros c Hc; apply Hall, Hc).
    rewrite (proj2 (issubset_columns_true cols cmp))
      by (intros c Hc; apply Hall, Hc).
    simpl.
    rewrite (drop_present cols ref) by (intros c Hc; apply Hall, Hc).
    simpl.
    rewrite (drop_present cols cmp) by (intros c Hc; apply Hall, Hc).
    reflexivity. }
  exists (List.filter keep ref), (List.filter keep cmp).
  split; [exact Hrun |].
  split; [apply filter_sublist |].
  split; [apply filter_sublist |].
  split; [| split].
  - intros col. rewrite elem_of_filter. unfold keep.
    rewrite bool_decide_eq_true. reflexivity.
  - intros col. rewrite elem_of_filter. unfold keep.
    rewrite bool_decide_eq_true. reflexivity.
  - unfold entrypoint; simpl. rewrite Hrun. simpl.
    destruct (column_mapping params); reflexivity.
Qed.

(** X7: only the set of excluded columns matters: two non-empty exclusion
    lists with the same members, in any order and with any repetitions,
    filter the datasets alike or fail alike. *)
Theorem ignored_cols_order_irrelevant
    (ref cmp : DataFrame)
    (params params' : EvidentlyReportParameters Metrics ReportOptions)
    (cols cols' : list string) :
  ignored_cols params = Some cols ->
  ignored_cols params' = Some cols' ->
  cols <> [] ->
  cols' <> [] ->
  (forall c, c ∈ cols <-> c ∈ cols') ->
  ignore_columns ref cmp params = ignore_columns ref cmp params'.
Proof.
  intros Hcols Hcols' Hne Hne' Hsame.
  unfold ignore_columns. rewrite Hcols, Hcols'.
  rewrite (truthy_list_nonempty cols Hne), (truthy_list_nonempty cols' Hne').
  simpl.
  assert (Hsub : forall df, issubset_columns cols df = issubset_columns cols' df).
  { intros df.
    destruct (issubset_columns cols' df) eqn:E.
    - apply issubset_columns_true. intros c Hc.
      apply (proj1 (issubset_columns_true cols' df) E), Hsame, Hc.
    - destruct (issubset_columns cols df) eqn:E'; [| reflexivity].
      rewrite <- E. symmetry. apply issubset_columns_true. intros c Hc.
      apply (proj1 (issubset_columns_true cols df) E'), Hsame, Hc. }
  rewrite <- !Hsub.
  destruct (issubset_columns cols ref) eqn:Eref; [| reflexivity].
  destruct (issubset_columns cols cmp) eqn:Ecmp; [| reflexivity].
  simpl.
  assert (Hdrop : forall df,
            issubset_columns cols df = true ->
            drop cols df = drop cols' df).
  { intros df E.
    rewrite (drop_present cols df)
      by (apply issubset_columns_true; exact E).
    rewrite (drop_present cols' df)
      by (intros c Hc; apply (proj1 (issubset_columns_true cols df) E),
            Hsame, Hc).
    f_equal. apply filter_ext. intros col.
    apply bool_decide_ext. rewrite (Hsame col.1). reflexivity. }
  rewrite <- (Hdrop ref Eref), <- (Hdrop cmp Ecmp). reflexivity.
Qed.

End StepFacts.

Lemma unknown_ignored_column_raises_witness :
  ignored_cols (example_params (Some ["city"; "zip"])) = Some ["city"; "zip"] /\
  "zip" ∈ ["city"; "zip"] /\
  ("zip" ∉ columns example_frame \/ "zip" ∉ columns example_frame) /\
  entrypoint evidently_defaults (Return example_validator)
    example_frame example_frame (example_params (Some ["city"; "zip"]))
  = Raise (ValueError
             "Column is not found in reference or comparison datasets").
Proof.
  assert (Hin : "zip" ∈ ["city"; "zip"]) by (right; left).
  assert (Hout : "zip" ∉ columns example_frame)
    by (unfold columns, example_frame; simpl;
        rewrite !elem_of_cons, elem_of_nil;
        intros [H | [H | H]]; try discriminate H; exact H).
  split; [reflexivity |]. split; [exact Hin |]. split; [left; exact Hout |].
  apply (unknown_ignored_column_raises evidently_defaults example_validator
           example_frame example_frame (example_params (Some ["city"; "zip"]))
           ["city"; "zip"] "zip");
    [reflexivity | exact Hin | left; exact Hout].
Defined.

Lemma ignored_columns_dropped_witness :
  ignored_cols (example_params (Some ["city"])) = Some ["city"] /\
  ["city"] <> [] /\
  (forall c, c ∈ ["city"] ->
     c ∈ columns example_frame /\ c ∈ columns example_frame) /\
  exists ref' cmp',
    ignore_columns example_frame example_frame (example_params (Some ["city"]))
    = Return (ref', cmp') /\
    ref' `sublist_of` example_frame /\
    cmp' `sublist_of` example_frame.
Proof.
  assert (Hall : forall c, c ∈ ["city"] ->
            c ∈ columns example_frame /\ c ∈ columns example_frame).
  { intros c Hc. apply list_elem_of_singleton in Hc. subst c.
    split; unfold columns, example_frame; simpl; right; left. }
  split; [reflexivity |]. split; [discriminate |]. split; [exact Hall |].
  destruct (ignored_columns_dropped evidently_defaults example_validator
              example_frame example_frame (example_params (Some ["city"]))
              ["city"] eq_refl ltac:(discriminate) Hall)
    as (ref' & cmp' & Hrun & Href & Hcmp & _).
  exists ref', cmp'. auto.
Defined.

Lemma ignored_cols_order_irrelevant_witness :
  ignore_columns example_frame example_frame
    (example_params (Some ["city"; "age"]))
  = ignore_columns example_frame example_frame
      (example_params (Some ["age"; "city"; "age"])).
Proof.
  apply (ignored_cols_order_irrelevant example_frame example_frame
           (example_params (Some ["city"; "age"]))
           (example_params (Some ["age"; "city"; "age"]))
           ["city"; "age"] ["age"; "city"; "age"]);
    [reflexivity | reflexivity | discriminate | discriminate |].
  intros c. rewrite !elem_of_cons, elem_of_nil. tauto.
Defined.

End IgnoredColumnsFacts.

(** * Properties of the MLflow model registry step *)

Module MLFlowRegistryStepFacts.
Import BaseModelRegistry EvidentlyReport MLFlowRegistryStep.

Lemma truthy_string (s : string) : s <> "" -> truthy s = true.
Proof. intros H. apply bool_decide_eq_true. exact H. Qed.

Lemma truthy_string_inv (s : string) : truthy s = true -> s <> "".
Proof. intros H. apply bool_decide_eq_true in H. exact H. Qed.

Lemma truthy_some_string (s : string) : s <> "" -> truthy (Some s) = true.
Proof. exact (truthy_string s). Qed.

Lemma falsy_option_string (o : option string) :
  truthy o = false -> o = None \/ o = Some "".
Proof.
  destruct o as [s|]; [| left; reflexivity].
  intros H. right. f_equal.
  destruct (decide (s = "")) as [-> | Hne]; [reflexivity |].
  rewrite (truthy_some_string s Hne) in H. discriminate H.
Qed.

Section StepFacts.

Context (zv : string) (tracker_error : PyExn)
  (get_artifact_uri : string -> option string -> PyResult string).

(** X8: a non-empty [model_source_uri] parameter is the one registered,
    together with the pipeline run, pipeline and step names of the step
    environment; with it (and a run id parameter) the outcome is that of
    the registration call alone, so neither the tracker lookup nor the
    artifact listing of the tracking server has a say. *)
Theorem explicit_source_uri_registered
    (get_run_id : string -> string -> PyResult (option string))
    (client : MlflowClient)
    (register : RegisterCall -> PyResult ModelVersion)
    (env : StepEnvironment) (params : MLFlowRegistryParameters)
    (rid u : string) :
  p_run_id params = Some rid -> rid <> "" ->
  get_run client rid = Return tt ->
  p_model_source_uri params = Some u -> u <> "" ->
  mlflow_register_model_step zv tracker_error get_artifact_uri
    (mkActiveStack (Some (MLFlowExperimentTracker get_run_id))
       (Some (MLFlowModelRegistry client register)))
    env params
  = (_ ← register (call_for zv env params u); Return tt).
Proof.
  intros Hrid Hne Hrun Huri Hu.
  unfold mlflow_register_model_step; simpl.
  rewrite Hrid, Huri.
  rewrite (truthy_some_string rid Hne); simpl.
  rewrite (truthy_string rid Hne); simpl.
  rewrite Hrun. unfold py_or.
  rewrite (truthy_some_string u Hu); simpl.
  rewrite (truthy_some_string u Hu); simpl.
  reflexivity.
Qed.

(** X9: without a usable [model_source_uri] parameter ([None] or empty),
    when the run has artifacts under the trained model's name, the step
    registers the artifact URI that MLflow resolves for that run and
    name. *)
Theorem tracked_artifact_registered
    (get_run_id : string -> string -> PyResult (option string))
    (client : MlflowClient)
    (register : RegisterCall -> PyResult ModelVersion)
    (env : StepEnvironment) (params : MLFlowRegistryParameters)
    (rid u : string) (artifacts : list string) :
  p_run_id params = Some rid -> rid <> "" ->
  get_run client rid = Return tt ->
  truthy (p_model_source_uri params) = false ->
  list_artifacts client rid (p_trained_model_name params) = Return artifacts ->
  artifacts <> [] ->
  get_artifact_uri rid (p_trained_model_name params) = Return u ->
  u <> "" ->
  mlflow_register_model_step zv tracker_error get_artifact_uri
    (mkActiveStack (Some (MLFlowExperimentTracker get_run_id))
       (Some (MLFlowModelRegistry client register)))
    env params
  = (_ ← register (call_for zv env params u); Return tt).
Proof.
  intros Hrid Hne Hrun Huri Hlist Harts Hget Hu.
  unfold mlflow_register_model_step; simpl.
  rewrite Hrid.
  rewrite (truthy_some_string rid Hne); simpl.
  rewrite (truthy_string rid Hne); simpl.
  rewrite Hrun, Huri; simpl. rewrite Hlist; simpl.
  destruct artifacts as [|x artifacts]; [congruence |]. simpl.
  rewrite Hget; simpl.
  rewrite (truthy_some_string u Hu); simpl.
  reflexivity.
Qed.

(** X10: without a usable [model_source_uri] parameter and with nothing
    logged under the trained model's name, the step fails with a
    [ValueError] and makes no registration call, whatever the registry
    would have answered. *)
Theorem no_source_uri_raises
    (get_run_id : string -> string -> PyResult (option string))
    (client : MlflowClient)
    (register : RegisterCall -> PyResult ModelVersion)
    (env : StepEnvironment) (params : MLFlowRegistryParameters)
    (rid : string) :
  p_run_id params = Some rid -> rid <> "" ->
  get_run client rid = Return tt ->
  truthy (p_model_source_uri params) = false ->
  list_artifacts client rid (p_trained_model_name params) = Return [] ->
  mlflow_register_model_step zv tracker_error get_artifact_uri
    (mkActiveStack (Some (MLFlowExperimentTracker get_run_id))
       (Some (MLFlowModelRegistry client register)))
    env params
  = Raise (ValueError
             "No model source URI provided or no model found in the MLflow tracking server for the given inputs.").
Proof.
  intros Hrid Hne Hrun Huri Hlist.
  unfold mlflow_register_model_step; simpl.
  rewrite Hrid.
  rewrite (truthy_some_string rid Hne); simpl.
  rewrite (truthy_string rid Hne); simpl.
  rewrite Hrun, Huri; simpl. rewrite Hlist; simpl.
  unfold py_or. rewrite Huri. reflexivity.
Qed.

(** X11: whatever the client's [get_run] raises for the run id, the step
    turns it into a [ValueError] that names the id; nothing is listed or
    registered. *)
Theorem unknown_run_raises
    (get_run_id : string -> string -> PyResult (option string))
    (client : MlflowClient)
    (register : RegisterCall -> PyResult ModelVersion)
    (env : StepEnvironment) (params : MLFlowRegistryParameters)
    (rid : string) (e : PyExn) :
  p_run_id params = Some rid -> rid <> "" ->
  get_run client rid = Raise e ->
  mlflow_register_model_step zv tracker_error get_artifact_uri
    (mkActiveStack (Some (MLFlowExperimentTracker get_run_id))
       (Some (MLFlowModelRegistry client register)))
    env params
  = Raise (ValueError ("Could not find MLflow run with ID " +:+ rid +:+ ".")).
Proof.
  intros Hrid Hne Hrun.
  unfold mlflow_register_model_step; simpl.
  rewrite Hrid.
  rewrite (truthy_some_string rid Hne); simpl.
  rewrite (truthy_string rid Hne); simpl.
  rewrite Hrun. reflexivity.
Qed.

(** X12: without a usable [run_id] parameter the run is looked up in the
    tracker under the experiment and run names of the parameters, each
    falling back to the pipeline's; when the lookup finds nothing the step
    fails with a [ValueError] whose message names the pipeline and its run,
    also when the lookup used the parameters' names. *)
Theorem run_not_found_raises
    (get_run_id : string -> string -> PyResult (option string))
    (client : MlflowClient)
    (register : RegisterCall -> PyResult ModelVersion)
    (env : StepEnvironment) (params : MLFlowRegistryParameters)
    (found : option string) :
  truthy (p_run_id params) = false ->
  get_run_id (str_or (p_experiment_name params) (pipeline_name env))
    (str_or (p_run_name params) (run_name env)) = Return found ->
  truthy found = false ->
  mlflow_register_model_step zv tracker_error get_artifact_uri
    (mkActiveStack (Some (MLFlowExperimentTracker get_run_id))
       (Some (MLFlowModelRegistry client register)))
    env params
  = Raise (ValueError
             ("Could not find MLflow run for experiment "
              +:+ pipeline_name env +:+ " and run " +:+ run_name env
              +:+ ".")).
Proof.
  intros Hrid Hlookup Hfound.
  unfold mlflow_register_model_step; simpl.
  rewrite Hrid, Hlookup; simpl.
  destruct (falsy_option_string found Hfound) as [-> | ->]; reflexivity.
Qed.

(** X13: if the step succeeds, both stack components are MLflow ones and
    the registry accepted a registration call that carries the
    parameters' model name and version tags, a non-empty source URI, and
    as provenance the ZenML version and the run, pipeline and step names of
    the step environment. *)
Theorem success_means_registered
    (stack : ActiveStack) (env : StepEnvironment)
    (params : MLFlowRegistryParameters) :
  mlflow_register_model_step zv tracker_error get_artifact_uri stack env params
  = Return tt ->
  exists get_run_id client register call mv u,
    experiment_tracker stack = Some (MLFlowExperimentTracker get_run_id) /\
    model_registry stack = Some (MLFlowModelRegistry client register) /\
    register call = Return mv /\
    call = call_for zv env params u /\
    u <> "".
Proof.
  unfold mlflow_register_model_step. intros Hrun.
  destruct (experiment_tracker stack) as [[get_run_id|]|];
    try discriminate Hrun.
  destruct (model_registry stack) as [[client register|]|];
    try discriminate Hrun.
  simpl in Hrun.
  destruct (if truthy (p_run_id params) then _ else _) as [[rid|]|e];
    simpl in Hrun; try discriminate Hrun.
  destruct (truthy rid); simpl in Hrun; try discriminate Hrun.
  destruct (get_run client rid); try discriminate Hrun.
  match type of Hrun with
  | (?c ≫= _) = _ => destruct c as [[u|]|e] eqn:Hsrc
  end; simpl in Hrun; try discriminate Hrun.
  destruct (truthy (Some u)) eqn:Hu; simpl in Hrun; try discriminate Hrun.
  destruct (register _) as [mv|e] eqn:Hreg; simpl in Hrun;
    try discriminate Hrun.
  exists get_run_id, client, register, (call_for zv env params u), mv, u.
  repeat split; try reflexivity.
  - exact Hreg.
  - apply truthy_string_inv. exact Hu.
Qed.

End StepFacts.

Lemma explicit_source_uri_registered_witness :
  mlflow_register_model_step "0.36.1" example_missing_tracker_error
    example_artifact_uri example_stack example_step_env
    example_params_explicit
  = (_ ← example_register
           (call_for "0.36.1" example_step_env example_params_explicit
              "s3://bucket/model");
     Return tt).
Proof.
  apply (explicit_source_uri_registered "0.36.1"
           example_missing_tracker_error example_artifact_uri _
           example_client example_register example_step_env
           example_params_explicit "abc123" "s3://bucket/model");
    [reflexivity | discriminate | reflexivity | reflexivity | discriminate].
Defined.

Lemma tracked_artifact_registered_witness :
  mlflow_register_model_step "0.36.1" example_missing_tracker_error
    example_artifact_uri example_stack example_step_env
    example_params_tracked
  = (_ ← example_register
           (call_for "0.36.1" example_step_env example_params_tracked
              "runs:/abc123/model");
     Return tt).
Proof.
  apply (tracked_artifact_registered "0.36.1"
           example_missing_tracker_error example_artifact_uri _
           example_client example_register example_step_env
           example_params_tracked "abc123" "runs:/abc123/model"
           ["model/MLmodel"]);
    [reflexivity | discriminate | reflexivity | reflexivity | reflexivity
    | discriminate | reflexivity | discriminate].
Defined.

Lemma no_source_uri_raises_witness :
  exists msg,
    mlflow_register_model_step "0.36.1" example_missing_tracker_error
      example_artifact_uri example_stack example_step_env
      example_params_untracked
    = Raise (ValueError msg).
Proof.
  eexists.
  apply (no_source_uri_raises "0.36.1" example_missing_tracker_error
           example_artifact_uri _ example_client example_register
           example_step_env example_params_untracked "abc123");
    [reflexivity | discriminate | reflexivity | reflexivity | reflexivity].
Defined.

Lemma unknown_run_raises_witness :
  mlflow_register_model_step "0.36.1" example_missing_tracker_error
    example_artifact_uri example_stack example_step_env
    example_params_bad_run
  = Raise (ValueError "Could not find MLflow run with ID zzz.").
Proof.
  apply (unknown_run_raises "0.36.1" example_missing_tracker_error
           example_artifact_uri _ example_client example_register
           example_step_env example_params_bad_run "zzz"
           (OtherError "MlflowException" "RESOURCE_DOES_NOT_EXIST"));
    [reflexivity | discriminate | reflexivity].
Defined.

Lemma run_not_found_raises_witness :
  mlflow_register_model_step "0.36.1" example_missing_tracker_error
    example_artifact_uri example_stack example_step_env
    example_params_no_run
  = Raise (ValueError
             "Could not find MLflow run for experiment training and run run-1.").
Proof.
  apply (run_not_found_raises "0.36.1" example_missing_tracker_error
           example_artifact_uri _ example_client example_register
           example_step_env example_params_no_run None);
    reflexivity.
Defined.

Lemma success_means_registered_witness :
  exists get_run_id client register call mv u,
    experiment_tracker example_stack
    = Some (MLFlowExperimentTracker get_run_id) /\
    model_registry example_stack
    = Some (MLFlowModelRegistry client register) /\
    register call = Return mv /\
    call = call_for "0.36.1" example_step_env
             (MLFlowRegistryParameters_default "m") u /\
    u <> "".
Proof.
  apply (success_means_registered "0.36.1" example_missing_tracker_error
           example_artifact_uri example_stack example_step_env
           (MLFlowRegistryParameters_default "m")).
  vm_compute. reflexivity.
Defined.

End MLFlowRegistryStepFacts.

(** * Properties of the Terraform server's variables update *)

Module TerraformZenServerFacts.
Import EvidentlyReport TerraformZenServer.

Section ServiceFacts.

Context {Value : Type}.

(** Folding the loop body over any list of keys: a key of the list that the
    server configuration has takes the server's value, every other key
    keeps what it had. *)
Lemma update_loop_lookup
    (server_config : gmap string Value) (keys : list string)
    (variables : gmap string Value) (k : string) :
  foldl
    (fun variables key =>
       match server_config !! key with
       | Some x => <[key := x]> variables
       | None => variables
       end)
    variables keys !! k
  = match (if decide (k ∈ keys) then server_config !! k else None) with
    | Some x => Some x
    | None => variables !! k
    end.
Proof.
  revert variables.
  induction keys as [|a keys IH]; intros variables; cbn [foldl].
  - rewrite decide_False by apply not_elem_of_nil. reflexivity.
  - rewrite IH.
    destruct (decide (k ∈ keys)) as [Hin | Hout].
    + rewrite decide_True by (right; exact Hin).
      destruct (server_config !! k) eqn:Hk; [reflexivity |].
      destruct (server_config !! a) eqn:Ha; [| reflexivity].
      rewrite lookup_insert_ne by (intros ->; congruence). reflexivity.
    + destruct (decide (a = k)) as [-> | Hne].
      * rewrite decide_True by left.
        destruct (server_config !! k); [apply lookup_insert_eq | reflexivity].
      * assert (Hnot : k ∉ a :: keys).
        { rewrite elem_of_cons. intros [Heq | H]; [| exact (Hout H)].
          apply Hne. symmetry. exact Heq. }
        rewrite (decide_False (P := k ∈ a :: keys)) by exact Hnot.
        destruct (server_config !! a); [| reflexivity].
        apply lookup_insert_ne. exact Hne.
Qed.

Lemma update_variables_spec
    (server_config variables : gmap string Value) (k : string) :
  update_variables server_config variables !! k
  = match variables !! k with
    | Some v => Some (default v (server_config !! k))
    | None => None
    end.
Proof.
  unfold update_variables. rewrite update_loop_lookup.
  destruct (variables !! k) as [v|] eqn:Hv.
  - destruct (server_config !! k) as [x|] eqn:Hx.
    + rewrite decide_True; [reflexivity |].
      apply elem_of_elements, elem_of_intersection.
      split; apply elem_of_dom; eauto.
    + case_decide; reflexivity.
  - rewrite decide_False; [reflexivity |].
    rewrite elem_of_elements, elem_of_intersection, !elem_of_dom.
    intros [_ [v Hv']]. congruence.
Qed.

Lemma update_variables_twice (server_config variables : gmap string Value) :
  update_variables server_config (update_variables server_config variables)
  = update_variables server_config variables.
Proof.
  apply map_eq. intros k. rewrite !update_variables_spec.
  destruct (variables !! k) as [v|]; [| reflexivity].
  destruct (server_config !! k); reflexivity.
Qed.

(** X14: the update loop keeps exactly the keys of the variables file: a
    key the server configuration also has takes the server's value, a key
    it does not have keeps its own, and a key only the server
    configuration has is not added. *)
Theorem update_variables_lookup
    (server_config variables : gmap string Value) :
  dom (update_variables server_config variables) = dom variables /\
  forall k,
    update_variables server_config variables !! k
    = match variables !! k with
      | Some v => Some (default v (server_config !! k))
      | None => None
      end.
Proof.
  split; [| apply update_variables_spec].
  apply set_eq. intros k. rewrite !elem_of_dom, update_variables_spec.
  destruct (variables !! k); split; intros [x Hx]; eauto; discriminate.
Qed.

(** X15: copying the configuration values a second time changes nothing,
    as long as the variables come back from the file as they were
    written: the first run's files are a fixed point of the method. *)
Theorem copy_config_values_idempotent
    (json_dump : gmap string Value -> string)
    (path_join : string -> string -> string)
    (get_vars : Files -> string -> PyResult (gmap string Value))
    (config : TerraformZenServerConfig Value) (files : Files)
    (variables : gmap string Value) :
  let updated := update_variables (server config) variables in
  get_vars files (directory_path config) = Return variables ->
  get_vars (_write_to_variables_file json_dump path_join config updated files)
    (directory_path config)
  = Return updated ->
  exists files',
    _copy_config_values json_dump path_join get_vars config files
    = Return files' /\
    _copy_config_values json_dump path_join get_vars config files'
    = Return files'.
Proof.
  intros updated Hread Hback.
  exists (_write_to_variables_file json_dump path_join config updated files).
  unfold _copy_config_values. rewrite Hread. simpl.
  split; [reflexivity |].
  fold updated. rewrite Hback. simpl. f_equal.
  unfold updated. rewrite update_variables_twice.
  unfold _write_to_variables_file. apply insert_insert_eq.
Qed.

End ServiceFacts.

Import TerraformExamples.

Example update_variables_example :
  update_variables example_server_config example_variables
  = <["region" := "eu-west-1"]> (<["namespace" := "production"]> ∅).
Proof. vm_compute. reflexivity. Qed.

Lemma copy_config_values_idempotent_witness :
  exists files',
    _copy_config_values example_json_dump example_path_join example_get_vars
      example_config example_files
    = Return files' /\
    _copy_config_values example_json_dump example_path_join example_get_vars
      example_config files'
    = Return files'.
Proof.
  apply (copy_config_values_idempotent example_json_dump example_path_join
           example_get_vars example_config example_files example_variables).
  - vm_compute. reflexivity.
  - vm_compute. reflexivity.
Defined.

End TerraformZenServerFacts.

(** * Properties of the command line option parser *)

Module CliUtilsFacts.
Import Stdlib.Strings.Ascii.
Import EvidentlyReport CliUtils.

Example split_examples :
  split "="%char "a=b" = ["a"; "b"] /\
  split "="%char "" = [""] /\
  split "="%char "a=" = ["a"; ""] /\
  split "="%char "a=b=c" = ["a"; "b"; "c"] /\
  lstrip "-"%char "---a-b" = "a-b".
Proof. repeat split. Qed.

Example parse_unknown_options_example :
  parse_unknown_options ascii_identifier ["--epochs=5"; "---lr=0.1"]
  = Return (<["epochs" := "5"]> (<["lr" := "0.1"]> ∅)).
Proof. vm_compute. reflexivity. Qed.

(** *** Splitting and stripping *)

Lemma split_nonempty (c : ascii) (s : string) : split c s <> [].
Proof.
  destruct s as [|x s]; simpl; [discriminate |].
  case_decide; [discriminate |]. destruct (split c s); discriminate.
Qed.

Lemma split_without_sep (c : ascii) (s : string) :
  contains c s = false -> split c s = [s].
Proof.
  induction s as [|x s IH]; simpl; [reflexivity |].
  intros H. apply orb_false_iff in H. destruct H as [Hx Hs].
  apply bool_decide_eq_false in Hx.
  rewrite decide_False by exact Hx. rewrite (IH Hs). reflexivity.
Qed.

Lemma split_at_first_sep (c : ascii) (k v : string) :
  contains c k = false -> split c (k +:+ String c v) = k :: split c v.
Proof.
  induction k as [|x k IH]; simpl.
  - intros _. rewrite decide_True by reflexivity. reflexivity.
  - intros H. apply orb_false_iff in H. destruct H as [Hx Hk].
    apply bool_decide_eq_false in Hx.
    rewrite decide_False by exact Hx. rewrite (IH Hk). reflexivity.
Qed.

(** Two pieces come from exactly one separator. *)
Lemma split_one_piece (c : ascii) (s v : string) :
  split c s = [v] -> s = v /\ contains c s = false.
Proof.
  revert v. induction s as [|x s IH]; simpl; intros v.
  - intros [= <-]. split; reflexivity.
  - case_decide as Hx.
    + intros H. injection H as _ H. destruct (split_nonempty c s H).
    + destruct (split c s) as [|piece pieces] eqn:Hs;
        [destruct (split_nonempty c s Hs) |].
      intros [= <- ->].
      destruct (IH piece eq_refl) as [-> Hc].
      split; [reflexivity |].
      rewrite Hc, orb_false_r. apply bool_decide_eq_false. exact Hx.
Qed.

Lemma split_two_pieces (c : ascii) (s k v : string) :
  split c s = [k; v] ->
  s = k +:+ String c v /\ contains c k = false /\ contains c v = false.
Proof.
  revert k. induction s as [|x s IH]; simpl; intros k.
  - discriminate.
  - case_decide as Hx.
    + intros [= <- Hs]. subst x.
      destruct (split_one_piece c s v Hs) as [-> Hc].
      repeat split; try reflexivity. exact Hc.
    + destruct (split c s) as [|piece pieces] eqn:Hs;
        [destruct (split_nonempty c s Hs) |].
      intros [= <- ->].
      destruct (IH piece eq_refl) as (-> & Hk & Hv).
      split; [reflexivity |]. split; [| exact Hv]. simpl.
      rewrite Hk, orb_false_r. apply bool_decide_eq_false. exact Hx.
Qed.

(** Stripping a leading character that is not the separator keeps the
    number of pieces. *)
Lemma split_lstrip_length (c d : ascii) (s : string) :
  d <> c -> length (split c (lstrip d s)) = length (split c s).
Proof.
  intros Hne. induction s as [|x s IH]; simpl; [reflexivity |].
  destruct (decide (x = d)) as [-> | Hx]; [| reflexivity].
  rewrite IH. rewrite decide_False by exact Hne.
  destruct (split c s) eqn:Hs; [destruct (split_nonempty c s Hs) |].
  reflexivity.
Qed.

Lemma lstrip_option_arg (kv : string * string) :
  String.prefix "-" kv.1 = false ->
  lstrip "-"%char (option_arg kv) = kv.1 +:+ String "="%char kv.2.
Proof.
  unfold option_arg. destruct kv as [k v]; simpl. intros Hp.
  destruct k as [|x k]; simpl; [reflexivity |].
  destruct (decide (x = "-"%char)) as [-> | Hx]; [| reflexivity].
  simpl in Hp. destruct k; discriminate Hp.
Qed.

Lemma split_option_arg_length (kv : string * string) :
  contains "="%char kv.1 = false -> contains "="%char kv.2 = false ->
  length (split "="%char (option_arg kv)) = 2.
Proof.
  intros Hk Hv. unfold option_arg.
  change ("--" +:+ kv.1 +:+ "=" +:+ kv.2)
    with (("--" +:+ kv.1) +:+ String "="%char kv.2).
  rewrite split_at_first_sep by (simpl; exact Hk).
  rewrite (split_without_sep _ _ Hv). reflexivity.
Qed.

Lemma prefix_dashes (r : string) : String.prefix "--" ("--" +:+ r) = true.
Proof. simpl. destruct r; reflexivity. Qed.

(** *** The dictionary built from key and value pairs *)

Lemma dict_fold_reverse (kvs : list (string * string)) (acc : gmap string string) :
  foldl (fun m kv => <[kv.1 := kv.2]> m) acc kvs
  = foldr (fun kv m => <[kv.1 := kv.2]> m) acc (reverse kvs).
Proof.
  revert acc. induction kvs as [|kv kvs IH]; intros acc; simpl;
    [reflexivity |].
  rewrite IH, reverse_cons, foldr_app. reflexivity.
Qed.

Lemma dict_fold_list_to_map (kvs : list (string * string)) :
  foldl (fun m kv => <[kv.1 := kv.2]> m) (∅ : gmap string string) kvs
  = list_to_map (reverse kvs).
Proof. rewrite dict_fold_reverse. reflexivity. Qed.

Lemma size_list_to_map_le (l : list (string * string)) :
  size (list_to_map l : gmap string string) <= length l.
Proof.
  induction l as [|[k v] l IH]; simpl; [rewrite map_size_empty; lia |].
  rewrite map_size_insert.
  destruct (list_to_map l !! k); simpl; lia.
Qed.

Lemma size_list_to_map_NoDup (l : list (string * string)) :
  size (list_to_map l : gmap string string) = length l -> NoDup l.*1.
Proof.
  induction l as [|[k v] l IH]; simpl; [constructor |].
  rewrite map_size_insert. pose proof (size_list_to_map_le l) as Hle.
  destruct (list_to_map l !! k) eqn:Hk; simpl; intros Hsize; [lia |].
  constructor; [| apply IH; lia].
  apply not_elem_of_list_to_map in Hk. exact Hk.
Qed.

Lemma dict_size_NoDup (kvs : list (string * string)) :
  length kvs = size (list_to_map (reverse kvs) : gmap string string) <->
  NoDup kvs.*1.
Proof.
  split.
  - intros Hsize.
    assert (Hrev : NoDup (reverse kvs).*1).
    { apply size_list_to_map_NoDup. rewrite length_reverse. lia. }
    rewrite fmap_reverse, reverse_Permutation in Hrev. exact Hrev.
  - intros Hnd. rewrite map_size_list_to_map, length_reverse; [reflexivity |].
    rewrite fmap_reverse, reverse_Permutation. exact Hnd.
Qed.

Lemma dict_of_pairs (kvs : list (string * string)) (acc : gmap string string) :
  dict_of ((fun kv => [kv.1; kv.2]) <$> kvs) acc
  = Return (foldl (fun m kv => <[kv.1 := kv.2]> m) acc kvs).
Proof.
  revert acc. induction kvs as [|kv kvs IH]; intros acc; simpl;
    [reflexivity |].
  apply IH.
Qed.

Lemma prefix_cons (a b : ascii) (s1 s2 : string) :
  String.prefix (String a s1) (String b s2)
  = if Ascii.ascii_dec a b then String.prefix s1 s2 else false.
Proof. reflexivity. Qed.

Lemma prefix_empty (s : string) : String.prefix "" s = true.
Proof. destruct s; reflexivity. Qed.

Lemma lstrip_head (c : ascii) (s : string) (x : ascii) (r : string) :
  lstrip c s = String x r -> x <> c.
Proof.
  induction s as [|y s IH]; simpl; [discriminate |].
  destruct (decide (y = c)) as [-> | Hy]; [exact IH |].
  intros [= <- _]. exact Hy.
Qed.

Lemma lstrip_cons_same (c : ascii) (s : string) :
  lstrip c (String c s) = lstrip c s.
Proof. simpl. rewrite decide_True by reflexivity. reflexivity. Qed.

Lemma split_cons_length (c x : ascii) (s : string) :
  x <> c -> length (split c (String x s)) = length (split c s).
Proof.
  intros Hx. simpl. rewrite decide_False by exact Hx.
  destruct (split c s) eqn:Hs; [destruct (split_nonempty c s Hs) |].
  reflexivity.
Qed.

(** What the parser splits an argument with one equals sign into. *)
Lemma p_arg_pair (a : string) :
  length (split "="%char a) = 2 ->
  exists k v,
    split "="%char (lstrip "-"%char a) = [k; v] /\
    lstrip "-"%char a = k +:+ "=" +:+ v /\
    String.prefix "-" k = false /\
    contains "="%char k = false /\
    contains "="%char v = false.
Proof.
  intros Hlen.
  rewrite <- (split_lstrip_length "="%char "-"%char a) in Hlen
    by discriminate.
  destruct (split "="%char (lstrip "-"%char a)) as [|k [|v [|? ?]]] eqn:Hs;
    try discriminate Hlen.
  exists k, v. split; [reflexivity |].
  destruct (split_two_pieces _ _ _ _ Hs) as (Ha & Hk & Hv).
  split; [exact Ha |]. split; [| split; assumption].
  destruct k as [|x k]; [reflexivity |].
  change (lstrip "-"%char a = String x (k +:+ "=" +:+ v)) in Ha.
  apply lstrip_head in Ha. rewrite prefix_cons.
  destruct (Ascii.ascii_dec "-"%char x) as [<- | _];
    [contradiction | reflexivity].
Qed.

Section ParseFacts.

Context (isidentifier : string -> bool).

Lemma all_identifier_pairs (kvs : list (string * string)) :
  all_identifier isidentifier ((fun kv => [kv.1; kv.2]) <$> kvs)
  = Return (forallb (fun kv => isidentifier kv.1) kvs).
Proof.
  induction kvs as [|kv kvs IH]; simpl; [reflexivity |].
  destruct (isidentifier kv.1); [exact IH | reflexivity].
Qed.

Lemma p_args_of_option_args (kvs : list (string * string)) :
  Forall (well_formed isidentifier) kvs ->
  (fun a => split "="%char (lstrip "-"%char a)) <$> (option_arg <$> kvs)
  = (fun kv => [kv.1; kv.2]) <$> kvs.
Proof.
  induction 1 as [|kv kvs (Hid & Hdash & Hk & Hv) _ IH]; [reflexivity |].
  rewrite !fmap_cons, IH. f_equal.
  rewrite (lstrip_option_arg kv Hdash).
  rewrite (split_at_first_sep _ _ _ Hk), (split_without_sep _ _ Hv).
  reflexivity.
Qed.

Lemma parse_option_args (kvs : list (string * string)) :
  Forall (well_formed isidentifier) kvs ->
  parse_unknown_options isidentifier (option_arg <$> kvs)
  = if decide (NoDup kvs.*1) then Return (list_to_map (reverse kvs))
    else Raise (AssertionError "Replicated arguments!").
Proof.
  intros Hwf. unfold parse_unknown_options.
  assert (H2 : forallb
                 (fun a => bool_decide (length (split "="%char a) = 2))
                 (option_arg <$> kvs) = true).
  { induction Hwf as [|kv kvs (Hid & Hdash & Hk & Hv) _ IH];
      [reflexivity |].
    rewrite fmap_cons. cbn [forallb].
    rewrite IH, andb_true_r. apply bool_decide_eq_true.
    apply split_option_arg_length; assumption. }
  assert (H3 : forallb (fun kv => isidentifier kv.1) kvs = true).
  { clear - Hwf.
    induction Hwf as [|kv kvs (Hid & _) _ IH]; [reflexivity |].
    cbn [forallb]. rewrite Hid, IH. reflexivity. }
  assert (H1 : forallb (String.prefix "--") (option_arg <$> kvs) = true).
  { clear. induction kvs as [|kv kvs IH]; [reflexivity |].
    rewrite fmap_cons. cbn [forallb].
    rewrite IH, andb_true_r. apply prefix_dashes. }
  rewrite H1, H2. simpl.
  rewrite (p_args_of_option_args kvs Hwf), all_identifier_pairs.
  rewrite H3. simpl.
  rewrite dict_of_pairs, dict_fold_list_to_map. simpl.
  rewrite length_fmap.
  destruct (decide (NoDup kvs.*1)) as [Hnd | Hdup].
  - rewrite bool_decide_eq_true_2 by (apply dict_size_NoDup; exact Hnd).
    reflexivity.
  - rewrite bool_decide_eq_false_2
      by (intros Hsize; apply Hdup, dict_size_NoDup; exact Hsize).
    reflexivity.
Qed.

(** X16: a list of arguments [--key=value] with identifier keys, values
    free of equals signs and no key twice parses to the dictionary of
    those keys and values. *)
Theorem well_formed_options_parsed (kvs : list (string * string)) :
  Forall (well_formed isidentifier) kvs ->
  NoDup kvs.*1 ->
  parse_unknown_options isidentifier (option_arg <$> kvs)
  = Return (list_to_map kvs).
Proof.
  intros Hwf Hnd. rewrite (parse_option_args kvs Hwf).
  rewrite decide_True by exact Hnd. f_equal.
  apply list_to_map_proper; [| apply reverse_Permutation].
  rewrite fmap_reverse, reverse_Permutation. exact Hnd.
Qed.

(** X17: when the arguments are well formed one by one but a key occurs
    twice, the parser fails with the [AssertionError] of replicated
    arguments instead of keeping one of the two values. *)
Theorem replicated_options_rejected (kvs : list (string * string)) :
  Forall (well_formed isidentifier) kvs ->
  ~ NoDup kvs.*1 ->
  parse_unknown_options isidentifier (option_arg <$> kvs)
  = Raise (AssertionError "Replicated arguments!").
Proof.
  intros Hwf Hdup. rewrite (parse_option_args kvs Hwf).
  rewrite decide_False by exact Hdup. reflexivity.
Qed.

(** X18: an argument that does not start with two dashes, or that does not
    hold exactly one equals sign, makes the parser fail with the
    [AssertionError] that carries the usage message. *)
Theorem malformed_option_rejected (args : list string) (a : string) :
  a ∈ args ->
  String.prefix "--" a = false \/ length (split "="%char a) <> 2 ->
  parse_unknown_options isidentifier args
  = Raise (AssertionError warning_message).
Proof.
  intros Hin Hbad. unfold parse_unknown_options.
  destruct (forallb (String.prefix "--") args) eqn:H1; [| reflexivity].
  simpl.
  destruct (forallb (fun a => bool_decide (length (split "="%char a) = 2))
              args) eqn:H2; [| reflexivity].
  exfalso. apply list_elem_of_In in Hin.
  rewrite forallb_forall in H1, H2.
  specialize (H1 a Hin). specialize (H2 a Hin).
  apply bool_decide_eq_true in H2.
  destruct Hbad as [Hp | Hlen]; [congruence | contradiction].
Qed.

Lemma p_args_pairs (args : list string) :
  forallb (fun a => bool_decide (length (split "="%char a) = 2)) args = true ->
  exists kvs : list (string * string),
    (fun a => split "="%char (lstrip "-"%char a)) <$> args
    = (fun kv => [kv.1; kv.2]) <$> kvs /\
    Forall2
      (fun a kv =>
         lstrip "-"%char a = kv.1 +:+ "=" +:+ kv.2 /\
         String.prefix "-" kv.1 = false /\
         contains "="%char kv.1 = false /\
         contains "="%char kv.2 = false)
      args kvs.
Proof.
  induction args as [|a args IH]; intros Hall.
  - exists []. split; [reflexivity | constructor].
  - cbn [forallb] in Hall. apply andb_true_iff in Hall.
    destruct Hall as [Ha Hall]. apply bool_decide_eq_true in Ha.
    destruct (IH Hall) as (kvs & Hp & Hf).
    destruct (p_arg_pair a Ha) as (k & v & Hs & Hrest).
    exists ((k, v) :: kvs). split.
    + rewrite !fmap_cons, Hp, Hs. reflexivity.
    + constructor; [exact Hrest | exact Hf].
Qed.

(** X19: whenever the parser returns a dictionary, every argument started
    with two dashes and, its leading dashes removed, read [key=value] with
    an identifier key and no further equals sign; the keys are pairwise
    different, and the dictionary holds exactly these keys with these
    values. *)
Theorem parsed_options_shape (args : list string) (d : gmap string string) :
  parse_unknown_options isidentifier args = Return d ->
  exists kvs : list (string * string),
    Forall2
      (fun a kv =>
         String.prefix "--" a = true /\
         lstrip "-"%char a = kv.1 +:+ "=" +:+ kv.2)
      args kvs /\
    Forall (well_formed isidentifier) kvs /\
    NoDup kvs.*1 /\
    d = list_to_map kvs.
Proof.
  unfold parse_unknown_options.
  destruct (forallb (String.prefix "--") args) eqn:H1;
    [| discriminate].
  destruct (forallb (fun a => bool_decide (length (split "="%char a) = 2))
              args) eqn:H2; [| discriminate].
  simpl.
  destruct (p_args_pairs args H2) as (kvs & -> & Hf).
  rewrite all_identifier_pairs. simpl.
  destruct (forallb (fun kv => isidentifier kv.1) kvs) eqn:H3;
    [| discriminate].
  simpl. rewrite dict_of_pairs, dict_fold_list_to_map. simpl.
  rewrite length_fmap.
  destruct (bool_decide (length kvs = size (list_to_map (reverse kvs))))
    eqn:Hsize; [| discriminate].
  simpl. intros [= <-].
  apply bool_decide_eq_true, dict_size_NoDup in Hsize.
  exists kvs. split; [| split; [| split]].
  - rewrite forallb_forall in H1.
    clear - H1 Hf. induction Hf as [|a kv args kvs (Ha & _) _ IH];
      constructor.
    + split; [| exact Ha]. apply H1. left. reflexivity.
    + apply IH. intros x Hx. apply H1. right. exact Hx.
  - rewrite forallb_forall in H3.
    clear - H3 Hf. induction Hf as [|a kv args kvs (_ & Hd & Hk & Hv) _ IH];
      constructor.
    + split; [apply H3; left; reflexivity |]. auto.
    + apply IH. intros x Hx. apply H3. right. exact Hx.
  - exact Hsize.
  - apply list_to_map_proper; [| apply reverse_Permutation].
    rewrite fmap_reverse, reverse_Permutation. exact Hsize.
Qed.

(** X20: further leading dashes change nothing: an argument list that
    passes the two-dashes check parses to the same outcome when one more
    dash is put in front of every argument. *)
Theorem extra_dash_ignored (args : list string) :
  forallb (String.prefix "--") args = true ->
  parse_unknown_options isidentifier (String "-"%char <$> args)
  = parse_unknown_options isidentifier args.
Proof.
  intros H1. unfold parse_unknown_options. rewrite H1.
  assert (H1' : forallb (String.prefix "--") (String "-"%char <$> args)
                = true).
  { clear - H1. induction args as [|a args IH]; [reflexivity |].
    cbn [forallb] in H1. apply andb_true_iff in H1. destruct H1 as [Ha H1].
    rewrite fmap_cons. cbn [forallb]. rewrite (IH H1), andb_true_r.
    destruct a as [|x [|y a]]; try discriminate Ha.
    - rewrite prefix_cons in Ha.
      destruct (Ascii.ascii_dec "-"%char x); discriminate Ha.
    - rewrite !prefix_cons in Ha. rewrite !prefix_cons.
      destruct (Ascii.ascii_dec "-"%char x) as [<- | ?]; [| discriminate Ha].
      destruct (Ascii.ascii_dec "-"%char "-"%char); [| contradiction].
      apply prefix_empty. }
  rewrite H1'. simpl.
  assert (H2 : forallb
                 (fun a => bool_decide (length (split "="%char a) = 2))
                 (String "-"%char <$> args)
               = forallb
                   (fun a => bool_decide (length (split "="%char a) = 2))
                   args).
  { clear. induction args as [|a args IH]; [reflexivity |].
    rewrite fmap_cons. cbn [forallb]. rewrite IH.
    rewrite split_cons_length by discriminate. reflexivity. }
  rewrite H2.
  assert (H3 : (fun a => split "="%char (lstrip "-"%char a))
                 <$> (String "-"%char <$> args)
               = (fun a => split "="%char (lstrip "-"%char a)) <$> args).
  { clear. induction args as [|a args IH]; [reflexivity |].
    rewrite !fmap_cons, IH, lstrip_cons_same. reflexivity. }
  rewrite H3. reflexivity.
Qed.

End ParseFacts.

Lemma example_options_well_formed :
  Forall (well_formed ascii_identifier) [("epochs", "5"); ("lr", "0.1")].
Proof. repeat constructor. Qed.

Lemma example_options_NoDup :
  NoDup [("epochs", "5"); ("lr", "0.1")].*1.
Proof.
  simpl. constructor; [| constructor; [apply not_elem_of_nil | constructor]].
  rewrite list_elem_of_singleton. discriminate.
Qed.

Lemma well_formed_options_parsed_witness :
  parse_unknown_options ascii_identifier ["--epochs=5"; "--lr=0.1"]
  = Return (<["epochs" := "5"]> (<["lr" := "0.1"]> ∅)).
Proof.
  exact (well_formed_options_parsed ascii_identifier
           [("epochs", "5"); ("lr", "0.1")]
           example_options_well_formed example_options_NoDup).
Defined.

Lemma replicated_options_rejected_witness :
  parse_unknown_options ascii_identifier ["--lr=0.1"; "--lr=0.2"]
  = Raise (AssertionError "Replicated arguments!").
Proof.
  apply (replicated_options_rejected ascii_identifier
           [("lr", "0.1"); ("lr", "0.2")]).
  - repeat constructor.
  - simpl. intros Hnd. apply NoDup_cons in Hnd. destruct Hnd as [Hout _].
    apply Hout. left.
Defined.

Lemma malformed_option_rejected_witness :
  parse_unknown_options ascii_identifier ["--epochs=5"; "--lr=0.1=0.2"]
  = Raise (AssertionError warning_message).
Proof.
  apply (malformed_option_rejected ascii_identifier
           ["--epochs=5"; "--lr=0.1=0.2"] "--lr=0.1=0.2").
  - right. left.
  - right. vm_compute. discriminate.
Defined.

Lemma parsed_options_shape_witness :
  exists kvs : list (string * string),
    Forall2
      (fun a kv =>
         String.prefix "--" a = true /\
         lstrip "-"%char a = kv.1 +:+ "=" +:+ kv.2)
      ["--epochs=5"; "---lr=0.1"] kvs /\
    Forall (well_formed ascii_identifier) kvs /\
    NoDup kvs.*1 /\
    (<["epochs" := "5"]> (<["lr" := "0.1"]> ∅) : gmap string string)
    = list_to_map kvs.
Proof.
  apply (parsed_options_shape ascii_identifier ["--epochs=5"; "---lr=0.1"]).
  vm_compute. reflexivity.
Defined.

Lemma extra_dash_ignored_witness :
  parse_unknown_options ascii_identifier ["---epochs=5"; "---lr=0.1"]
  = parse_unknown_options ascii_identifier ["--epochs=5"; "--lr=0.1"].
Proof.
  apply (extra_dash_ignored ascii_identifier ["--epochs=5"; "--lr=0.1"]).
  reflexivity.
Defined.

End CliUtilsFacts.

(** * Properties of the command line tables *)

Module CliTablesFacts.
Import CliTables.

Lemma elem_of_add_key (keys : list string) (key k : string) :
  k ∈ add_key keys key <-> k ∈ keys \/ k = key.
Proof.
  unfold add_key. case_bool_decide as Hin.
  - split; [auto |]. intros [H | ->]; assumption.
  - rewrite elem_of_app, list_elem_of_singleton. reflexivity.
Qed.

Lemma NoDup_add_key (keys : list string) (key : string) :
  NoDup keys -> NoDup (add_key keys key).
Proof.
  intros Hnd. unfold add_key. case_bool_decide as Hin; [exact Hnd |].
  apply NoDup_app. split; [exact Hnd |]. split.
  - intros x Hx Hx'. apply list_elem_of_singleton in Hx'. subst x.
    contradiction.
  - apply NoDup_singleton.
Qed.

Lemma add_keys_spec (l keys : list string) :
  (NoDup keys -> NoDup (foldl add_key keys l)) /\
  forall k, k ∈ foldl add_key keys l <-> k ∈ keys \/ k ∈ l.
Proof.
  revert keys. induction l as [|key l IH]; intros keys; cbn [foldl].
  - split; [auto |]. intros k. rewrite elem_of_nil. tauto.
  - destruct (IH (add_key keys key)) as [Hnd Hin]. split.
    + intros H. apply Hnd, NoDup_add_key, H.
    + intros k. rewrite Hin, elem_of_add_key, elem_of_cons. tauto.
Qed.

Lemma column_keys_spec {Cell : Type} (obj : list (odict Cell))
    (keys : list string) :
  (NoDup keys ->
   NoDup (foldl (fun keys dict_ => foldl add_key keys dict_.*1) keys obj)) /\
  forall k,
    k ∈ foldl (fun keys dict_ => foldl add_key keys dict_.*1) keys obj <->
    k ∈ keys \/ exists dict_, dict_ ∈ obj /\ k ∈ dict_.*1.
Proof.
  revert keys. induction obj as [|d obj IH]; intros keys; cbn [foldl].
  - split; [auto |]. intros k. split; [auto |].
    intros [H | (d & Hd & _)]; [exact H |].
    apply elem_of_nil in Hd. contradiction.
  - destruct (IH (foldl add_key keys d.*1)) as [Hnd Hin].
    destruct (add_keys_spec d.*1 keys) as [Hnd' Hin']. split.
    + intros H. apply Hnd, Hnd', H.
    + intros k. rewrite Hin, Hin'. split.
      * intros [[H | H] | (d' & Hd' & Hk)]; [left; exact H | |].
        -- right. exists d. split; [left | exact H].
        -- right. exists d'. split; [right; exact Hd' | exact Hk].
      * intros [H | (d' & Hd' & Hk)]; [left; left; exact H |].
        apply elem_of_cons in Hd'. destruct Hd' as [-> | Hd'].
        -- left. right. exact Hk.
        -- right. exists d'. split; assumption.
Qed.

Lemma add_keys_fresh (l keys : list string) :
  NoDup (keys ++ l) -> foldl add_key keys l = (keys ++ l)%list.
Proof.
  revert keys. induction l as [|key l IH]; intros keys Hnd; cbn [foldl].
  - rewrite app_nil_r. reflexivity.
  - assert (Hout : key ∉ keys).
    { apply NoDup_app in Hnd. destruct Hnd as (_ & Hdisj & _).
      intros Hin. apply (Hdisj key Hin). left. }
    unfold add_key at 2. rewrite bool_decide_eq_false_2 by exact Hout.
    rewrite IH, <- app_assoc; [reflexivity |].
    rewrite <- app_assoc. exact Hnd.
Qed.

Lemma add_keys_present (l keys : list string) :
  (forall k : string, k ∈ l -> k ∈ keys) -> foldl add_key keys l = keys.
Proof.
  induction l as [|key l IH]; intros Hall; cbn [foldl]; [reflexivity |].
  unfold add_key at 2.
  rewrite bool_decide_eq_true_2 by (apply Hall; left).
  apply IH. intros k Hk. apply Hall. right. exact Hk.
Qed.

Lemma odict_get_present {V : Type} (d : odict V) (k : string) :
  k ∈ d.*1 -> is_Some (odict_get d k).
Proof.
  induction d as [|[k' v] d IH]; simpl; intros Hin.
  - apply elem_of_nil in Hin. contradiction.
  - case_decide as Hk; [eexists; reflexivity |].
    apply IH. apply elem_of_cons in Hin.
    destruct Hin as [-> | Hin]; [contradiction | exact Hin].
Qed.

Lemma column_keys_uniform {Cell : Type} (obj : list (odict Cell))
    (ks : list string) :
  Forall (fun dict_ => dict_.*1 = ks) obj ->
  foldl (fun keys dict_ => foldl add_key keys dict_.*1) ks obj = ks.
Proof.
  induction 1 as [|d obj Hd _ IH]; cbn [foldl]; [reflexivity |].
  rewrite Hd, add_keys_present by auto. exact IH.
Qed.

Section TableFacts.

Context {Cell Column : Type} (upper : string -> string).

(** X21: when all dictionaries have the same keys, as the docstring asks,
    the columns are these keys in the dictionaries' order and no cell of
    the table is missing. *)
Theorem uniform_rows_fill_table
    (obj : list (odict Cell)) (columns : gmap string Column)
    (ks : list string) :
  NoDup ks ->
  obj <> [] ->
  Forall (fun dict_ => dict_.*1 = ks) obj ->
  column_keys obj = ks /\
  Forall (Forall is_Some) (rows (print_table upper obj columns)).
Proof.
  intros Hnd Hne Hall.
  assert (Hkeys : column_keys obj = ks).
  { unfold column_keys. destruct obj as [|d obj]; [congruence |].
    apply Forall_cons in Hall. destruct Hall as [Hd Hall].
    cbn [foldl]. rewrite Hd, (add_keys_fresh ks []) by exact Hnd.
    simpl. apply column_keys_uniform. exact Hall. }
  split; [exact Hkeys |].
  simpl. rewrite Hkeys. apply Forall_fmap, Forall_forall.
  intros d Hd. simpl. apply Forall_fmap, Forall_forall.
  intros k Hk. simpl. apply odict_get_present.
  rewrite Forall_forall in Hall. rewrite (Hall d Hd). exact Hk.
Qed.

(** X22: the table [print_table] builds is rectangular and complete: one
    row per dictionary, each with exactly one cell per header; one header
    per key that occurs in some dictionary, none twice. *)
Theorem print_table_rectangular
    (obj : list (odict Cell)) (columns : gmap string Column) :
  let table := print_table upper obj columns in
  length (rows table) = length obj /\
  Forall (fun row => length row = length (headers table)) (rows table) /\
  length (headers table) = length (column_keys obj) /\
  NoDup (column_keys obj) /\
  forall k,
    k ∈ column_keys obj <-> exists dict_, dict_ ∈ obj /\ k ∈ dict_.*1.
Proof.
  simpl. split; [apply length_fmap |]. split; [| split; [| split]].
  - apply Forall_fmap, Forall_forall. intros d _. simpl.
    rewrite !length_fmap. reflexivity.
  - apply length_fmap.
  - apply (column_keys_spec obj []). constructor.
  - intros k. unfold column_keys.
    rewrite (proj2 (column_keys_spec obj []) k), elem_of_nil. tauto.
Qed.

End TableFacts.

Section SecretFacts.

Context {SecretValue : Type} (upper : string -> string).

(** X23: with [hide_secret] the printed table does not depend on the
    secret's values: two secrets of the same name with the same keys, set
    and unset alike, give the same table, whatever the values are and
    however they would print. *)
Theorem hidden_secret_values_not_shown
    (str str' : SecretValue -> string) (secret_name : string)
    (content content' : odict (option SecretValue)) :
  Forall2
    (fun item item' =>
       item.1 = item'.1 /\ (item.2 = None <-> item'.2 = None))
    content content' ->
  pretty_print_secret str upper secret_name content true
  = pretty_print_secret str' upper secret_name content' true.
Proof.
  intros Hsame. unfold pretty_print_secret. f_equal.
  induction Hsame as [|[k v] [k' v'] content content' [Hk Hv] _ IH];
    [reflexivity |].
  rewrite !fmap_cons, IH. simpl in Hk, Hv. subst k'. do 4 f_equal.
  destruct v, v'; simpl; try reflexivity.
  - destruct Hv as [_ Hv]. discriminate (Hv eq_refl).
  - destruct Hv as [Hv _]. discriminate (Hv eq_refl).
Qed.

End SecretFacts.

Lemma uniform_rows_fill_table_witness :
  column_keys
    [[("NAME", "default"); ("FLAVOR", "local")];
     [("NAME", "remote"); ("FLAVOR", "s3")]]
  = ["NAME"; "FLAVOR"] /\
  Forall (Forall is_Some)
    (rows
       (print_table (Column := Empty_set) (fun s => s)
          [[("NAME", "default"); ("FLAVOR", "local")];
           [("NAME", "remote"); ("FLAVOR", "s3")]]
          ∅)).
Proof.
  apply (uniform_rows_fill_table (Column := Empty_set) (fun s => s)
           [[("NAME", "default"); ("FLAVOR", "local")];
            [("NAME", "remote"); ("FLAVOR", "s3")]]
           ∅ ["NAME"; "FLAVOR"]).
  - constructor; [| constructor; [apply not_elem_of_nil | constructor]].
    rewrite list_elem_of_singleton. discriminate.
  - discriminate.
  - repeat constructor.
Defined.

Example pretty_print_secret_example :
  rows (pretty_print_secret (fun s : string => s) (fun s => s)
          "db" example_secret_content true)
  = [[Some "db"; Some "user"; Some "***"]; [Some "db"; Some "token"; Some ""]].
Proof. vm_compute. reflexivity. Qed.

Lemma hidden_secret_values_not_shown_witness :
  pretty_print_secret (fun s : string => s) (fun s => s) "db"
    example_secret_content true
  = pretty_print_secret (fun s : string => s) (fun s => s) "db"
      [("user", Some "root"); ("token", None)] true.
Proof.
  apply (hidden_secret_values_not_shown (fun s => s) (fun s : string => s)
           (fun s => s) "db" example_secret_content
           [("user", Some "root"); ("token", None)]).
  repeat constructor; simpl; intros H; discriminate H.
Defined.

End CliTablesFacts.

(** * Properties of the PyTorch materializer *)

Module PyTorchMaterializerFacts.
Import EvidentlyReport PyTorchMaterializer.

Section MaterializerFacts.

Context {Module_ TorchDict StateDict : Type}
  (state_dict : Module_ -> StateDict)
  (torch_save : @Saved Module_ TorchDict StateDict -> string)
  (torch_load : string -> PyResult (@Saved Module_ TorchDict StateDict))
  (path_join : string -> string -> string)
  (base_handle_input : PyResult unit)
  (base_handle_return : @Model Module_ TorchDict -> PyResult unit).

(** X24: a model written by [handle_return] is the one [handle_input]
    reads back from the same artifact, also for a module, whose checkpoint
    goes to a second file; a [TorchDict] gets no checkpoint file, and no
    other file is touched.  This holds when the base class accepts both
    calls, [torch.load] undoes [torch.save] on the model, and the two file
    names give two paths. *)
Theorem saved_model_loads_back
    (uri : string) (model : @Model Module_ TorchDict)
    (files : gmap string string) :
  base_handle_return model = Return tt ->
  base_handle_input = Return tt ->
  torch_load (torch_save (SavedModel model)) = Return (SavedModel model) ->
  path_join uri DEFAULT_FILENAME <> path_join uri CHECKPOINT_FILENAME ->
  exists files',
    handle_return state_dict torch_save path_join base_handle_return
      uri model files
    = Return files' /\
    handle_input torch_load path_join base_handle_input uri files'
    = Return (SavedModel model) /\
    (forall path,
       path <> path_join uri DEFAULT_FILENAME ->
       path <> path_join uri CHECKPOINT_FILENAME ->
       files' !! path = files !! path) /\
    files' !! path_join uri CHECKPOINT_FILENAME
    = match model with
      | AModule m => Some (torch_save (SavedStateDict (state_dict m)))
      | ATorchDict _ => files !! path_join uri CHECKPOINT_FILENAME
      end.
Proof.
  intros Hret Hin Hload Hpaths.
  unfold handle_return, handle_input. rewrite Hret, Hin. simpl.
  destruct model as [m | d]; eexists; (split; [reflexivity |]).
  - unfold read_file.
    rewrite lookup_insert_ne by (intros H; apply Hpaths; symmetry; exact H).
    rewrite lookup_insert_eq. simpl. split; [exact Hload |]. split.
    + intros path Hd Hc.
      rewrite !lookup_insert_ne by (intros H; congruence). reflexivity.
    + apply lookup_insert_eq.
  - unfold read_file. rewrite lookup_insert_eq. simpl.
    split; [exact Hload |]. split.
    + intros path Hd Hc.
      rewrite lookup_insert_ne by (intros H; congruence). reflexivity.
    + apply lookup_insert_ne. exact Hpaths.
Qed.

End MaterializerFacts.

Lemma saved_model_loads_back_witness :
  exists files',
    handle_return (fun m : list string => m) example_save example_path_join
      (fun _ => Return tt) "/artifacts/7" (AModule ["w1"; "w2"]) ∅
    = Return files' /\
    handle_input example_load example_path_join (Return tt)
      "/artifacts/7" files'
    = Return (SavedModel (AModule ["w1"; "w2"])).
Proof.
  destruct (saved_model_loads_back (fun m : list string => m) example_save
              example_load example_path_join (Return tt)
              (fun _ => Return tt) "/artifacts/7" (AModule ["w1"; "w2"]) ∅)
    as (files' & Hret & Hin & _);
    [reflexivity | reflexivity | reflexivity | discriminate |].
  exists files'. split; assumption.
Defined.

End PyTorchMaterializerFacts.

(** * Properties of the pipeline run DAG visualizer *)

Module PipelineRunDagVisualizerFacts.
Import PipelineRunDagVisualizer.

Section VisualizerFacts.

Context {Id : Type} (str : Id -> string).

(** The edges one step adds: one from each of its parents. *)
Lemma parent_edges (step : StepView Id) (parents : list Id) (dot : Digraph) :
  let dot' :=
    foldl
      (fun dot parent_step_id =>
         edge (str parent_step_id) (str (step_id step)) dot)
      dot parents in
  comment dot' = comment dot /\
  node_names (body dot') = node_names (body dot) /\
  edges (body dot')
  = (edges (body dot)
     ++ ((fun parent => (str parent, str (step_id step))) <$> parents))%list.
Proof.
  revert dot. induction parents as [|parent parents IH]; intros dot;
    cbn [foldl].
  - simpl. rewrite app_nil_r. auto.
  - destruct (IH (edge (str parent) (str (step_id step)) dot))
      as (Hc & Hn & He).
    simpl in *. rewrite Hc, Hn, He.
    unfold node_names, edges. rewrite !omap_app. simpl.
    rewrite app_nil_r, <- app_assoc. auto.
Qed.

Lemma visualize_loop (steps : list (StepView Id)) (dot : Digraph) :
  let dot' :=
    foldl
      (fun dot step =>
         let dot := node (str (step_id step)) (step_name step) dot in
         foldl
           (fun dot parent_step_id =>
              edge (str parent_step_id) (str (step_id step)) dot)
           dot (parents_step_ids step))
      dot steps in
  comment dot' = comment dot /\
  node_names (body dot')
  = (node_names (body dot)
     ++ ((fun step => str (step_id step)) <$> steps))%list /\
  edges (body dot')
  = (edges (body dot)
     ++ (steps ≫= fun step =>
           (fun parent => (str parent, str (step_id step)))
             <$> parents_step_ids step))%list.
Proof.
  revert dot. induction steps as [|step steps IH]; intros dot; cbn [foldl].
  - simpl. rewrite !app_nil_r. auto.
  - match goal with
    | |- context [foldl _ (foldl ?f ?d ?l) steps] =>
        destruct (IH (foldl f d l)) as (Hc & Hn & He);
        destruct (parent_edges step (parents_step_ids step)
                    (node (str (step_id step)) (step_name step) dot))
          as (Hc' & Hn' & He')
    end.
    simpl in *. rewrite Hc, Hn, He, Hc', Hn', He'.
    unfold node_names, edges. rewrite !omap_app. simpl.
    rewrite !app_nil_r, <- !app_assoc. auto.
Qed.

(** X25: the graph of a run carries the run's name, declares one node per
    step in the order of the steps, and has one edge per parent of each
    step, from the parent to the step; so every edge ends at a declared
    node. *)
Theorem visualize_graph (run_name : string) (steps : list (StepView Id)) :
  let dot := visualize str run_name steps in
  comment dot = run_name /\
  node_names (body dot) = (fun step => str (step_id step)) <$> steps /\
  edges (body dot)
  = (steps ≫= fun step =>
       (fun parent => (str parent, str (step_id step)))
         <$> parents_step_ids step) /\
  forall tail_name head_name,
    (tail_name, head_name) ∈ edges (body dot) ->
    head_name ∈ node_names (body dot).
Proof.
  destruct (visualize_loop steps (mkDigraph run_name [])) as (Hc & Hn & He).
  simpl in *. unfold visualize.
  split; [exact Hc |]. split; [exact Hn |]. split; [exact He |].
  intros t h. rewrite He, Hn. rewrite list_elem_of_bind.
  intros (step & Hedge & Hstep).
  apply list_elem_of_fmap in Hedge. destruct Hedge as (parent & [= -> ->] & _).
  apply list_elem_of_fmap. exists step. split; [reflexivity | exact Hstep].
Qed.

End VisualizerFacts.

Example visualize_example :
  body
    (visualize (fun n : nat => pretty n) "run"
       [mkStepView 1 "load" []; mkStepView 2 "train" [1]])
  = [Node "1" "load"; Node "2" "train"; Edge "1" "2"].
Proof. vm_compute. reflexivity. Qed.

End PipelineRunDagVisualizerFacts.
